(** * Staff canteen: redemption rule, read cache and admin writers

    A shallow embedding of [streamlit_app.py].  The four SQLite tables
    become one record [DB]; the [st.cache_data] layer becomes a record
    [Cache] of time-stamped entries; every function of the script that
    reads or writes the database becomes a function on [State].

    Conventions of the embedding.
    - Strings are sequences of ASCII characters.
    - Python [int] is [Z]; SQLite INTEGER is the signed 64-bit range,
      and binding a Python [int] outside it raises [OverflowError].
    - The database is always reachable: [get_db_connection] returns a
      connection and no statement fails for I/O reasons.  Foreign keys
      are not enforced (the script never issues the pragma that turns
      them on).
    - The session runs within one calendar day, [TODAY_DATE]. *)

From Stdlib Require Import ZArith QArith String Ascii List Lia.
From stdpp Require Import gmap strings list fin_maps pretty sorting.

Local Open Scope string_scope.
Local Open Scope list_scope.
Local Open Scope Z_scope.

(** ** Constants *)

Definition ADMIN_BARCODE_ID : string := "9999".
Definition ADMIN_DEPARTEMEN_NAME : string := "ADMIN".

(** ** Python values *)

(** Truth value of a [str]: non-empty. *)
Definition truthy (s : string) : bool :=
  match s with EmptyString => false | String _ _ => true end.

Inductive exn := ValueError | OverflowError | TypeError.

Inductive outcome (A : Type) :=
| Ok (a : A)
| Raise (e : exn).
Arguments Ok {A} a.
Arguments Raise {A} e.

(** Range of a value that [sqlite3] can bind as INTEGER. *)
Definition sqlite_int_ok (z : Z) : bool :=
  (- 2 ^ 63 <=? z) && (z <? 2 ^ 63).

(** ** Tables *)

(** A row of [staf] without its key column: [barcode_id] is UNIQUE, so
    the table is a finite map from [barcode_id] to the other columns.
    The surrogate [id] is never selected and is left out. *)
Record staf_row := StafRow {
  nama : string;
  departemen : string;
  jatah_harian : Z;
  jatah_tersisa : Z
}.

(** [dict(row)] as returned by [get_staf_data(barcode_id)]. *)
Record staf_dict := StafDict {
  d_barcode_id : string;
  d_nama : string;
  d_departemen : string;
  d_jatah_harian : Z;
  d_jatah_tersisa : Z
}.

(** The JSON object kept in [menu_harian.menu_data]. *)
Record menu_dict := MenuDict {
  menu : string;
  harga : Z
}.

Record transaksi_row := Transaksi {
  t_id : Z;
  t_barcode_id : string;
  t_tanggal : string;
  t_waktu : string;
  t_menu : string;
  t_harga : Z;
  t_staff_nama : string;
  t_status_scan : string
}.

(** A row of the report: the columns selected by
    [get_transactions_by_date]. *)
Record laporan_row := Laporan {
  l_id : Z;
  l_tanggal : string;
  l_waktu : string;
  l_barcode_id : string;
  l_staff_nama : string;
  l_departemen : string;
  l_menu : string;
  l_harga : Z;
  l_status_scan : string
}.

Record DB := mkDB {
  tbl_departemen : gset string;            (* nama_dept UNIQUE *)
  tbl_menu_harian : gmap string menu_dict; (* tanggal UNIQUE *)
  tbl_staf : gmap string staf_row;         (* barcode_id UNIQUE *)
  tbl_transaksi : list transaksi_row       (* in rowid order *)
}.

Global Instance staf_row_eq_dec : EqDecision staf_row.
Proof. solve_decision. Defined.
Global Instance staf_dict_eq_dec : EqDecision staf_dict.
Proof. solve_decision. Defined.
Global Instance menu_dict_eq_dec : EqDecision menu_dict.
Proof. solve_decision. Defined.
Global Instance transaksi_row_eq_dec : EqDecision transaksi_row.
Proof. solve_decision. Defined.
Global Instance laporan_row_eq_dec : EqDecision laporan_row.
Proof. solve_decision. Defined.

Definition empty_db : DB := mkDB ∅ ∅ ∅ [].

Definition set_staf (f : gmap string staf_row → gmap string staf_row) (d : DB) : DB :=
  mkDB (tbl_departemen d) (tbl_menu_harian d) (f (tbl_staf d)) (tbl_transaksi d).

Definition set_departemen (f : gset string → gset string) (d : DB) : DB :=
  mkDB (f (tbl_departemen d)) (tbl_menu_harian d) (tbl_staf d) (tbl_transaksi d).

Definition set_menu_harian (f : gmap string menu_dict → gmap string menu_dict) (d : DB) : DB :=
  mkDB (tbl_departemen d) (f (tbl_menu_harian d)) (tbl_staf d) (tbl_transaksi d).

Definition set_transaksi (f : list transaksi_row → list transaksi_row) (d : DB) : DB :=
  mkDB (tbl_departemen d) (tbl_menu_harian d) (tbl_staf d) (f (tbl_transaksi d)).

(** ** SQL statements *)

Definition dict_of (barcode_id : string) (r : staf_row) : staf_dict :=
  StafDict barcode_id (nama r) (departemen r) (jatah_harian r) (jatah_tersisa r).

(** [UPDATE staf SET jatah_tersisa = jatah_harian] *)
Definition reset_row (r : staf_row) : staf_row :=
  StafRow (nama r) (departemen r) (jatah_harian r) (jatah_harian r).

Definition sql_reset_jatah (d : DB) : DB :=
  set_staf (fmap reset_row) d.

(** [UPDATE staf SET jatah_tersisa = jatah_tersisa - 1
     WHERE barcode_id = ? AND jatah_tersisa > 0] *)
Definition decrement_row (r : staf_row) : staf_row :=
  StafRow (nama r) (departemen r) (jatah_harian r) (jatah_tersisa r - 1).

Definition sql_kurangi_jatah (barcode_id : string) (d : DB) : DB :=
  set_staf (λ m,
    match m !! barcode_id with
    | Some r => if 0 <? jatah_tersisa r then <[barcode_id := decrement_row r]> m else m
    | None => m
    end) d.

(** AUTOINCREMENT on [transaksi.id]: one more than the largest rowid
    of the table (no statement of the script deletes from it). *)
Definition next_id (l : list transaksi_row) : Z :=
  1 + foldr Z.max 0 (t_id <$> l).

(** [INSERT INTO transaksi (barcode_id, tanggal, waktu, menu, harga,
     staff_nama, status_scan) VALUES (?, ?, ?, ?, ?, ?, ?)] *)
Definition sql_insert_transaksi
    (barcode_id tanggal waktu menu_ : string) (harga_ : Z)
    (staff_nama status : string) (d : DB) : DB :=
  set_transaksi (λ l,
    l ++ [Transaksi (next_id l) barcode_id tanggal waktu menu_ harga_ staff_nama status]) d.

(** [INSERT OR REPLACE INTO staf (barcode_id, nama, departemen,
     jatah_harian, jatah_tersisa) VALUES (?, ?, ?, ?, ?)]: a row with the
    same [barcode_id] is removed first. *)
Definition sql_replace_staf (barcode_id : string) (r : staf_row) (d : DB) : DB :=
  set_staf (insert barcode_id r) d.

(** [UPDATE staf SET nama = ?, departemen = ?, jatah_harian = ?,
     jatah_tersisa = ? WHERE barcode_id = ?] *)
Definition sql_update_staf (barcode_id : string) (r : staf_row) (d : DB) : DB :=
  set_staf (λ m,
    match m !! barcode_id with
    | Some _ => <[barcode_id := r]> m
    | None => m
    end) d.

(** [DELETE FROM staf WHERE barcode_id = ?] *)
Definition sql_delete_staf (barcode_id : string) (d : DB) : DB :=
  set_staf (delete barcode_id) d.

(** [INSERT OR IGNORE INTO departemen (nama_dept) VALUES (?)] *)
Definition sql_insert_ignore_departemen (nama_dept : string) (d : DB) : DB :=
  set_departemen (λ s, {[nama_dept]} ∪ s) d.

(** [INSERT OR REPLACE INTO menu_harian (tanggal, menu_data)
     VALUES (?, ?)] *)
Definition sql_replace_menu (tanggal : string) (m : menu_dict) (d : DB) : DB :=
  set_menu_harian (insert tanggal m) d.

(** ** Queries, as the four cached readers run them *)

(** What [get_staf_data] returns: [dict(row)] or [None] when it is
    given a barcode, a DataFrame of all rows otherwise. *)
Inductive staf_result :=
| RDict (o : option staf_dict)
| RFrame (df : list staf_dict).

Global Instance staf_result_eq_dec : EqDecision staf_result.
Proof. solve_decision. Defined.

(** The DataFrame lists the rows in the order of the map, not in rowid
    order; nothing below depends on the order. *)
Definition select_staf (barcode_id : option string) (d : DB) : staf_result :=
  match barcode_id with
  | Some b =>
      if truthy b
      then RDict (dict_of b <$> tbl_staf d !! b)
      else RFrame (uncurry dict_of <$> map_to_list (tbl_staf d))
  | None => RFrame (uncurry dict_of <$> map_to_list (tbl_staf d))
  end.

Definition select_menu (date_str : string) (d : DB) : option menu_dict :=
  tbl_menu_harian d !! date_str.

(** Insertion of [x] into a list ordered by [le], before the first
    element that [x] does not follow. *)
Fixpoint insert_by {A} (le : A → A → bool) (x : A) (l : list A) : list A :=
  match l with
  | [] => [x]
  | y :: l' => if le x y then x :: y :: l' else y :: insert_by le x l'
  end.

Definition sort_by {A} (le : A → A → bool) (l : list A) : list A :=
  foldr (insert_by le) [] l.

(** [SELECT nama_dept FROM departemen ORDER BY nama_dept] *)
Definition select_departemen (d : DB) : list string :=
  sort_by String.leb (elements (tbl_departemen d)).

(** [t.tanggal BETWEEN ? AND ?]; a NULL bound makes the test unknown
    and the row is dropped. *)
Definition between (x : string) (lo hi : option string) : bool :=
  match lo, hi with
  | Some a, Some b => String.leb a x && String.leb x b
  | _, _ => false
  end.

(** [if departemen and departemen != "SEMUA DEPARTEMEN"] and its
    twin for the status: the filter that is added to the WHERE clause,
    if any. *)
Definition active_filter (sentinel : string) (v : option string) : option string :=
  match v with
  | Some s => if truthy s && negb (String.eqb s sentinel) then Some s else None
  | None => None
  end.

Definition filter_ok (f : option string) (x : string) : bool :=
  match f with
  | Some s => String.eqb x s
  | None => true
  end.

(** The columns selected from a transaction [t] and the staff row [s]
    it is joined with. *)
Definition laporan_of (t : transaksi_row) (s : staf_row) : laporan_row :=
  Laporan (t_id t) (t_tanggal t) (t_waktu t) (t_barcode_id t)
          (t_staff_nama t) (departemen s) (t_menu t) (t_harga t)
          (t_status_scan t).

(** [transaksi t JOIN staf s ON t.barcode_id = s.barcode_id] *)
Definition join_staf (d : DB) (t : transaksi_row) : list laporan_row :=
  match tbl_staf d !! t_barcode_id t with
  | Some s => [laporan_of t s]
  | None => []
  end.

(** [ORDER BY t.tanggal DESC, t.waktu DESC] *)
Definition laporan_desc (a b : laporan_row) : bool :=
  String.ltb (l_tanggal b) (l_tanggal a)
  || (String.eqb (l_tanggal a) (l_tanggal b) && String.leb (l_waktu b) (l_waktu a)).

Definition laporan_where (from_date to_date departemen_ status_scan : option string)
    (r : laporan_row) : bool :=
  between (l_tanggal r) from_date to_date
  && filter_ok (active_filter "SEMUA DEPARTEMEN" departemen_) (l_departemen r)
  && filter_ok (active_filter "SEMUA STATUS" status_scan) (l_status_scan r).

Definition select_transactions
    (from_date to_date departemen_ status_scan : option string) (d : DB)
    : list laporan_row :=
  sort_by laporan_desc
    (List.filter (laporan_where from_date to_date departemen_ status_scan)
       (flat_map (join_staf d) (tbl_transaksi d))).

(** ** The read cache

    [st.cache_data(ttl=...)] keeps, per decorated function and per
    argument tuple, the value returned and the time it was computed; an
    entry is served while [now < created + ttl]. *)

Record entry (V : Type) := Entry {
  created : Z;
  cached : V
}.
Arguments Entry {V} created cached.
Arguments created {V} e.
Arguments cached {V} e.

Definition tx_key : Type :=
  option string * option string * option string * option string.

Record Cache := mkCache {
  c_transactions : gmap tx_key (entry (list laporan_row));
  c_staf : gmap (option string) (entry staf_result);
  c_departemen : gmap unit (entry (list string));
  c_menu : gmap string (entry (option menu_dict))
}.

Definition empty_cache : Cache := mkCache ∅ ∅ ∅ ∅.

Definition cache_call {K V} `{Countable K}
    (ttl now : Z) (k : K) (compute : V) (m : gmap K (entry V))
    : V * gmap K (entry V) :=
  match m !! k with
  | Some e =>
      if now <? created e + ttl then (cached e, m)
      else (compute, <[k := Entry now compute]> m)
  | None => (compute, <[k := Entry now compute]> m)
  end.

Record State := mkState {
  db : DB;
  cache : Cache
}.

(** [clear_all_caches]: [st.cache_data.clear()] *)
Definition clear_all_caches (st : State) : State :=
  mkState (db st) empty_cache.

(** ** Functions of the script: state and exceptions

    A function takes the state and returns a value or an exception that
    leaves the function, together with the state it leaves behind. *)

Definition M (A : Type) : Type := State → outcome A * State.

Definition ret {A} (a : A) : M A := λ st, (Ok a, st).

Definition raise {A} (e : exn) : M A := λ st, (Raise e, st).

Definition bind {A B} (c : M A) (k : A → M B) : M B :=
  λ st,
    match c st with
    | (Ok a, st') => k a st'
    | (Raise e, st') => (Raise e, st')
    end.

Declare Scope canteen_scope.
Delimit Scope canteen_scope with canteen.
Notation "x <- c ;; k" := (bind c (λ x, k))
  (at level 100, c at next level, right associativity) : canteen_scope.
Local Open Scope canteen_scope.

(** [conn.commit()] followed by [clear_all_caches()]. *)
Definition commit (d : DB) (st : State) : State :=
  clear_all_caches (mkState d (cache st)).

Inductive scan_result :=
| MenuBelumDiatur
| TidakAdaScan
| GagalTidakTerdaftar
| GagalAdmin
| GagalJatahHabis (nama_staf : string)
| Sukses (nama_staf dept menu_ : string) (harga_ sisa_jatah dari : Z).

(** What a form handler reports. *)
Inductive form_result :=
| Berhasil
| FieldKosong
| SudahTerdaftar
| ErrorLain.

(** ** Login and routing

    [st.session_state] with its two keys, and what [main],
    [authentication] and [admin_page] do to them. *)

Record session := mkSession {
  logged_in : bool;
  role : string
}.

(** The session of a new browser tab. *)
Definition session_awal : session := mkSession false "user".

Inductive page := PageAdmin | PageLogin | PageScan.

(** The routing at the end of [main]. *)
Definition route (s : session) : page :=
  if logged_in s && String.eqb (role s) "admin" then PageAdmin
  else if String.eqb (role s) "login" then PageLogin
  else PageScan.

(** What the user can do in a run of the script. *)
Inductive action :=
| KlikLoginAdmin                 (* side bar, shown when not logged in *)
| KlikBeralih                    (* side bar, shown when logged in *)
| KlikLogout                     (* side bar, shown when logged in *)
| PilihLogout                    (* menu of the admin page *)
| KirimLogin (submitted : bool) (barcode_input : string).  (* login form *)

(** [authentication]: the form of the login page. *)
Definition authentication (submitted : bool) (barcode_input : string) (s : session)
    : session :=
  if submitted then
    if String.eqb barcode_input ADMIN_BARCODE_ID then mkSession true "admin"
    else s
  else s.

(** An action has its effect when its widget is on the page that the
    session shows, and none otherwise. *)
Definition act (a : action) (s : session) : session :=
  match a with
  | KlikLoginAdmin => if logged_in s then s else mkSession false "login"
  | KlikBeralih => if logged_in s then mkSession false "user" else s
  | KlikLogout => if logged_in s then mkSession false "user" else s
  | PilihLogout =>
      match route s with
      | PageAdmin => mkSession false "user"
      | _ => s
      end
  | KirimLogin submitted barcode_input =>
      match route s with
      | PageLogin => authentication submitted barcode_input s
      | _ => s
      end
  end.

Definition acts (l : list action) (s : session) : session :=
  foldl (λ s a, act a s) s l.

(** ** The select box of the edit tab

    The options are ["<barcode_id> - <nama>"]; the barcode to edit is
    taken back from the option chosen with [split(' - ')[0]]. *)

(** [s.split(sep)[0]]: what comes before the first [sep] in [s], all
    of [s] if there is none. *)
Fixpoint before_sep (sep s : string) : string :=
  if String.prefix sep s then ""
  else
    match s with
    | EmptyString => ""
    | String a s' => String a (before_sep sep s')
    end.

Definition staf_option (barcode_id nama_ : string) : string :=
  barcode_id +:+ " - " +:+ nama_.

Definition barcode_to_edit_of (selected_staf_info : string) : string :=
  before_sep " - " selected_staf_info.

Fixpoint has_space (s : string) : bool :=
  match s with
  | EmptyString => false
  | String a s' => Ascii.eqb a " " || has_space s'
  end.

Section Canteen.

(** The date of the session, ["%Y-%m-%d"]. *)
Variable TODAY_DATE : string.

(** *** Cached readers *)

Definition get_transactions_by_date (now : Z)
    (from_date to_date departemen_ status_scan : option string)
    : M (list laporan_row) :=
  λ st,
    let c := cache st in
    let '(v, m) :=
      cache_call 300 now (from_date, to_date, departemen_, status_scan)
        (select_transactions from_date to_date departemen_ status_scan (db st))
        (c_transactions c) in
    (Ok v, mkState (db st) (mkCache m (c_staf c) (c_departemen c) (c_menu c))).

Definition get_staf_data (now : Z) (barcode_id : option string) : M staf_result :=
  λ st,
    let c := cache st in
    let '(v, m) :=
      cache_call 600 now barcode_id (select_staf barcode_id (db st)) (c_staf c) in
    (Ok v, mkState (db st) (mkCache (c_transactions c) m (c_departemen c) (c_menu c))).

Definition get_departemen_data (now : Z) : M (list string) :=
  λ st,
    let c := cache st in
    let '(v, m) :=
      cache_call 3600 now tt (select_departemen (db st)) (c_departemen c) in
    (Ok v, mkState (db st) (mkCache (c_transactions c) (c_staf c) m (c_menu c))).

Definition get_menu_today (now : Z) (date_str : string) : M (option menu_dict) :=
  λ st,
    let c := cache st in
    let '(v, m) :=
      cache_call 60 now date_str (select_menu date_str (db st)) (c_menu c) in
    (Ok v, mkState (db st) (mkCache (c_transactions c) (c_staf c) (c_departemen c) m)).

(** *** Writers *)

(** Seeds the admin row and the admin department when they are
    missing; commits, and does not touch the cache. *)
Definition setup_database : M unit :=
  λ st,
    let d := db st in
    let d1 :=
      match tbl_staf d !! ADMIN_BARCODE_ID with
      | None =>
          set_staf (insert ADMIN_BARCODE_ID
                      (StafRow "Administrator" ADMIN_DEPARTEMEN_NAME 999 999)) d
      | Some _ => d
      end in
    let d2 :=
      if decide (ADMIN_DEPARTEMEN_NAME ∈ tbl_departemen d1) then d1
      else set_departemen (λ s, {[ADMIN_DEPARTEMEN_NAME]} ∪ s) d1 in
    (Ok tt, mkState d2 (cache st)).

Definition reset_jatah_harian : M bool :=
  λ st, (Ok true, commit (sql_reset_jatah (db st)) st).

(** [waktu] is the clock reading ["%H:%M:%S"].  A price outside the
    INTEGER range makes [cursor.execute] raise [OverflowError], which
    the handler for [sqlite3.Error] does not catch; nothing is
    committed. *)
Definition record_transaction (waktu : string)
    (barcode_id staff_nama menu_ : string) (harga_ : Z) (status : string)
    : M bool :=
  λ st,
    let tanggal := TODAY_DATE in
    if sqlite_int_ok harga_ then
      let d1 :=
        sql_insert_transaksi barcode_id tanggal waktu menu_ harga_
          staff_nama status (db st) in
      let d2 :=
        if String.eqb status "SUKSES" then sql_kurangi_jatah barcode_id d1
        else d1 in
      (Ok true, commit d2 st)
    else (Raise OverflowError, st).

Definition save_menu_today (date_str : string) (menu_dict_ : menu_dict) : M bool :=
  λ st, (Ok true, commit (sql_replace_menu date_str menu_dict_ (db st)) st).

(** *** The scan page *)

Definition scan_page (now : Z) (waktu : string)
    (submitted : bool) (barcode_input : string) : M scan_result :=
  menu_today <- get_menu_today now TODAY_DATE ;;
  match menu_today with
  | None => ret MenuBelumDiatur
  | Some menu_today =>
      if submitted && truthy barcode_input then
        let barcode_id_to_process := barcode_input in
        staf <- get_staf_data now (Some barcode_id_to_process) ;;
        match staf with
        | RDict None =>
            _ <- record_transaction waktu barcode_id_to_process "N/A"
                   (menu menu_today) (harga menu_today) "GAGAL" ;;
            ret GagalTidakTerdaftar
        | RDict (Some staf) =>
            if String.eqb (d_barcode_id staf) ADMIN_BARCODE_ID then
              _ <- record_transaction waktu barcode_id_to_process (d_nama staf)
                     (menu menu_today) (harga menu_today) "GAGAL" ;;
              ret GagalAdmin
            else if d_jatah_tersisa staf <=? 0 then
              _ <- record_transaction waktu barcode_id_to_process (d_nama staf)
                     (menu menu_today) (harga menu_today) "GAGAL" ;;
              ret (GagalJatahHabis (d_nama staf))
            else
              _ <- record_transaction waktu barcode_id_to_process (d_nama staf)
                     (menu menu_today) (harga menu_today) "SUKSES" ;;
              staf_after_scan <- get_staf_data now (Some barcode_id_to_process) ;;
              match staf_after_scan with
              | RDict (Some a) =>
                  ret (Sukses (d_nama a) (d_departemen a) (menu menu_today)
                         (harga menu_today) (d_jatah_tersisa a) (d_jatah_harian a))
              (* subscripting [None] *)
              | RDict None => raise TypeError
              | RFrame _ => raise TypeError
              end
        (* the truth value of a comparison on a DataFrame column *)
        | RFrame _ => raise ValueError
        end
      else ret TidakAdaScan
  end.

(** *** CSV import *)

(** A cell of the DataFrame that [pd.read_csv] builds. *)
Inductive cell :=
| CInt (n : Z)
| CFloat (q : Q)          (* a finite float *)
| CNaN                    (* an empty field *)
| CInf (negative : bool)
| CBool (b : bool)
| CStr (s : string).

Record DataFrame := mkDataFrame {
  columns : list string;
  records : list (list cell)
}.

(** [str.isspace] on ASCII. *)
Definition is_space (a : ascii) : bool :=
  let n := nat_of_ascii a in
  (((9 <=? n) && (n <=? 13)) || ((28 <=? n) && (n <=? 32)))%nat.

Fixpoint lstrip (s : string) : string :=
  match s with
  | String a s' => if is_space a then lstrip s' else s
  | EmptyString => EmptyString
  end.

Definition strip (s : string) : string :=
  String.rev (lstrip (String.rev (lstrip s))).

Definition digit_of (a : ascii) : option Z :=
  let n := nat_of_ascii a in
  if ((48 <=? n) && (n <=? 57))%nat then Some (Z.of_nat (n - 48)) else None.

(** Decimal digits, with single underscores between digits only. *)
Fixpoint digits (acc : Z) (after_digit : bool) (s : string) : option Z :=
  match s with
  | EmptyString => if after_digit then Some acc else None
  | String a s' =>
      if Ascii.eqb a "_" then
        if after_digit then digits acc false s' else None
      else
        match digit_of a with
        | Some d => digits (10 * acc + d) true s'
        | None => None
        end
  end.

(** The white space that [int] skips around the digits: tab, newline,
    vertical tab, form feed, carriage return and space, and not the
    separators 28 to 31 that [str.strip] removes. *)
Definition is_space_int (a : ascii) : bool :=
  let n := nat_of_ascii a in
  (((9 <=? n) && (n <=? 13)) || (n =? 32))%nat.

Fixpoint lstrip_int (s : string) : string :=
  match s with
  | String a s' => if is_space_int a then lstrip_int s' else s
  | EmptyString => EmptyString
  end.

Definition strip_int (s : string) : string :=
  String.rev (lstrip_int (String.rev (lstrip_int s))).

(** [int(s)] for a [str]: [None] stands for [ValueError]. *)
Definition int_of_str (s : string) : option Z :=
  match strip_int s with
  | String "+" s' => digits 0 false s'
  | String "-" s' => Z.opp <$> digits 0 false s'
  | s' => digits 0 false s'
  end.

(** Decimal text of a finite float; not modelled. *)
Variable float_repr : Q → string.

(** [str(x)] *)
Definition py_str (c : cell) : string :=
  match c with
  | CInt n => pretty n
  | CFloat q => float_repr q
  | CNaN => "nan"
  | CInf negative => if negative then "-inf" else "inf"
  | CBool b => if b then "True" else "False"
  | CStr s => s
  end.

(** [int(x)] *)
Definition py_int (c : cell) : outcome Z :=
  match c with
  | CInt n => Ok n
  | CFloat q => Ok (Z.quot (Qnum q) (Z.pos (Qden q)))
  | CNaN => Raise ValueError
  | CInf _ => Raise OverflowError
  | CBool b => Ok (if b then 1 else 0)
  | CStr s =>
      match int_of_str s with
      | Some n => Ok n
      | None => Raise ValueError
      end
  end.

Fixpoint column_index (name : string) (cols : list string) : option nat :=
  match cols with
  | [] => None
  | c :: cols' =>
      if String.eqb c name then Some 0%nat
      else S <$> column_index name cols'
  end.

(** [row[name]]; the columns asked for are present when this runs. *)
Definition row_get (cols : list string) (row : list cell) (name : string) : cell :=
  match column_index name cols with
  | Some i => nth i row CNaN
  | None => CNaN
  end.

Definition required_cols : list string :=
  ["barcode_id"; "nama"; "departemen"; "jatah_harian"].

(** [all(col in df_import.columns for col in required_cols)] *)
Definition columns_present (df_import : DataFrame) : bool :=
  forallb (λ col, bool_decide (col ∈ columns df_import)) required_cols.

(** The open transaction and the two counters of the loop. *)
Record import_acc := mkAcc {
  i_db : DB;
  success_count : Z;
  fail_count : Z
}.

Definition row_failed (acc : import_acc) : import_acc :=
  mkAcc (i_db acc) (success_count acc) (fail_count acc + 1).

(** One turn of the loop.  [ValueError] from [int] is caught and the row
    skipped; another exception from [int] leaves the function.  A quota
    that passes the checks but cannot be bound as INTEGER raises inside
    the inner [try] and falls to [except Exception]. *)
Definition import_row (cols : list string) (row : list cell) (acc : import_acc)
    : outcome import_acc :=
  let barcode := strip (py_str (row_get cols row "barcode_id")) in
  let nama_ := strip (py_str (row_get cols row "nama")) in
  let dept := strip (py_str (row_get cols row "departemen")) in
  match py_int (row_get cols row "jatah_harian") with
  | Raise ValueError => Ok (row_failed acc)
  | Raise e => Raise e
  | Ok jatah =>
      if negb (truthy barcode) || negb (truthy nama_) || negb (truthy dept)
         || (jatah <=? 0)
      then Ok (row_failed acc)
      else if sqlite_int_ok jatah then
        Ok (mkAcc
              (sql_insert_ignore_departemen dept
                 (sql_replace_staf barcode (StafRow nama_ dept jatah jatah) (i_db acc)))
              (success_count acc + 1)
              (fail_count acc))
      else Ok (row_failed acc)
  end.

Fixpoint import_rows (cols : list string) (rows : list (list cell)) (acc : import_acc)
    : outcome import_acc :=
  match rows with
  | [] => Ok acc
  | row :: rows' =>
      match import_row cols row acc with
      | Ok acc' => import_rows cols rows' acc'
      | Raise e => Raise e
      end
  end.

(** The rows are written in one transaction, committed after the loop;
    an exception that leaves the loop leaves it uncommitted. *)
Definition import_staf_from_csv (df_import : DataFrame) : M (Z * Z) :=
  λ st,
    if columns_present df_import then
      match import_rows (columns df_import) (records df_import) (mkAcc (db st) 0 0) with
      | Ok acc => (Ok (success_count acc, fail_count acc), commit (i_db acc) st)
      | Raise e => (Raise e, st)
      end
    else (Ok (0, 0), st).

(** *** Form handlers of the admin pages

    The inputs are what the widgets hand over; [st.number_input] with
    integer bounds returns an integer between [min_value] and
    [2^53 - 1]. *)

(** ["tambah_staf_form"]: a plain INSERT, so a registered barcode is an
    [IntegrityError]. *)
Definition tambah_staf_form (new_barcode_id new_nama new_dept : string) (new_jatah : Z)
    : M form_result :=
  λ st,
    if negb (truthy new_barcode_id) || negb (truthy new_nama) then (Ok FieldKosong, st)
    else if negb (sqlite_int_ok new_jatah) then (Ok ErrorLain, st)
    else
      match tbl_staf (db st) !! new_barcode_id with
      | Some _ => (Ok SudahTerdaftar, st)
      | None =>
          (Ok Berhasil,
           commit (set_staf (insert new_barcode_id
                               (StafRow new_nama new_dept new_jatah new_jatah)) (db st)) st)
      end.

(** ["edit_staf_form"], button "Simpan Perubahan". *)
Definition edit_staf_form (barcode_to_edit edit_nama edit_dept : string) (edit_jatah : Z)
    : M form_result :=
  λ st,
    if negb (sqlite_int_ok edit_jatah) then (Ok ErrorLain, st)
    else
      (Ok Berhasil,
       commit (sql_update_staf barcode_to_edit
                 (StafRow edit_nama edit_dept edit_jatah edit_jatah) (db st)) st).

(** ["delete_staf_button"] *)
Definition delete_staf_button (barcode_to_edit : string) : M form_result :=
  λ st, (Ok Berhasil, commit (sql_delete_staf barcode_to_edit (db st)) st).

(** ["form_tambah_dept"]: a plain INSERT on a UNIQUE column. *)
Definition form_tambah_dept (new_dept_name : string) : M form_result :=
  λ st,
    if negb (truthy new_dept_name) then (Ok FieldKosong, st)
    else if decide (new_dept_name ∈ tbl_departemen (db st)) then (Ok SudahTerdaftar, st)
    else
      (Ok Berhasil,
       commit (set_departemen (λ s, {[new_dept_name]} ∪ s) (db st)) st).

(** ["form_menu_harian"] *)
Definition form_menu_harian (menu_input : string) (harga_input : Z) : M form_result :=
  if negb (truthy menu_input) || (harga_input <=? 0) then ret FieldKosong
  else
    _ <- save_menu_today TODAY_DATE (MenuDict menu_input harga_input) ;;
    ret Berhasil.

(** *** The report page

    [admin_laporan_scan_harian], without its widgets: the counts and
    the sum shown above the table.  The sum of an integer column is
    taken in 64 bits and wraps around. *)

Definition wrap64 (z : Z) : Z := (z + 2 ^ 63) mod 2 ^ 64 - 2 ^ 63.

Definition is_sukses (r : laporan_row) : bool :=
  String.eqb (l_status_scan r) "SUKSES".

(** [df[df['status_scan'] == 'SUKSES'].shape[0]] *)
Definition total_sukses (df : list laporan_row) : nat :=
  length (List.filter is_sukses df).

(** [df[df['status_scan'] != 'SUKSES'].shape[0]] *)
Definition total_gagal (df : list laporan_row) : nat :=
  length (List.filter (λ r, negb (is_sukses r)) df).

(** [df[df['status_scan'] == 'SUKSES']['harga'].sum()] *)
Definition total_biaya (df : list laporan_row) : Z :=
  wrap64 (foldr Z.add 0 (l_harga <$> List.filter is_sukses df)).

Inductive laporan_page :=
| BelumAdaData
| Ringkasan (sukses gagal : nat) (biaya : Z) (detail : list laporan_row).

(** The page reads the department list for its select box, then the
    report for the chosen dates and filters; an empty report ends the
    page at the warning. *)
Definition admin_laporan_scan_harian (now : Z)
    (from_date_str to_date_str filter_dept filter_status : string)
    : M laporan_page :=
  _ <- get_departemen_data now ;;
  df_transaksi <- get_transactions_by_date now (Some from_date_str)
                    (Some to_date_str) (Some filter_dept) (Some filter_status) ;;
  match df_transaksi with
  | [] => ret BelumAdaData
  | _ :: _ =>
      ret (Ringkasan (total_sukses df_transaksi) (total_gagal df_transaksi)
             (total_biaya df_transaksi) df_transaksi)
  end.

(** ** A session: any sequence of requests *)

Inductive request :=
| ReqSetup
| ReqScan (now : Z) (waktu : string) (submitted : bool) (barcode_input : string)
| ReqReset
| ReqTambahStaf (new_barcode_id new_nama new_dept : string) (new_jatah : Z)
| ReqEditStaf (barcode_to_edit edit_nama edit_dept : string) (edit_jatah : Z)
| ReqHapusStaf (barcode_to_edit : string)
| ReqImpor (df_import : DataFrame)
| ReqTambahDept (new_dept_name : string)
| ReqMenu (menu_input : string) (harga_input : Z)
| ReqLaporan (now : Z) (from_date to_date departemen_ status_scan : option string)
| ReqStaf (now : Z) (barcode_id : option string)
| ReqDepartemen (now : Z)
| ReqMenuToday (now : Z).

Definition after {A} (c : M A) (st : State) : State := snd (c st).

Definition step (r : request) (st : State) : State :=
  match r with
  | ReqSetup => after setup_database st
  | ReqScan now waktu submitted barcode_input =>
      after (scan_page now waktu submitted barcode_input) st
  | ReqReset => after reset_jatah_harian st
  | ReqTambahStaf b n d j => after (tambah_staf_form b n d j) st
  | ReqEditStaf b n d j => after (edit_staf_form b n d j) st
  | ReqHapusStaf b => after (delete_staf_button b) st
  | ReqImpor df => after (import_staf_from_csv df) st
  | ReqTambahDept n => after (form_tambah_dept n) st
  | ReqMenu m h => after (form_menu_harian m h) st
  | ReqLaporan now f t d s => after (get_transactions_by_date now f t d s) st
  | ReqStaf now b => after (get_staf_data now b) st
  | ReqDepartemen now => after (get_departemen_data now) st
  | ReqMenuToday now => after (get_menu_today now TODAY_DATE) st
  end.

Definition run (rs : list request) (st : State) : State :=
  foldl (λ s r, step r s) st rs.

(** The bounds that the number widgets put on what they return. *)
Definition number_input_ok (min_value v : Z) : bool :=
  (min_value <=? v) && (v <=? 2 ^ 53 - 1).

Definition widget_ok (r : request) : bool :=
  match r with
  | ReqTambahStaf _ _ _ new_jatah => number_input_ok 1 new_jatah
  | ReqEditStaf _ _ _ edit_jatah => number_input_ok 1 edit_jatah
  | ReqMenu _ harga_input => number_input_ok 100 harga_input
  | _ => true
  end.

(** The state that [setup_database] makes of a new database file. *)
Definition initial_state : State :=
  after setup_database (mkState empty_db empty_cache).

(** ** Invariants of a session *)

(** Every cache entry holds what its query returns on the current
    database. *)
Definition coherent (st : State) : Prop :=
  map_Forall (λ (k : tx_key) e,
      cached e = select_transactions k.1.1.1 k.1.1.2 k.1.2 k.2 (db st))
    (c_transactions (cache st))
  ∧ map_Forall (λ k e, cached e = select_staf k (db st)) (c_staf (cache st))
  ∧ map_Forall (λ (_ : unit) e, cached e = select_departemen (db st))
      (c_departemen (cache st))
  ∧ map_Forall (λ k e, cached e = select_menu k (db st)) (c_menu (cache st)).

(** Registered barcodes are non-empty and stored prices can be bound
    as INTEGER. *)
Definition well_formed (d : DB) : Prop :=
  map_Forall (λ b (_ : staf_row), truthy b = true) (tbl_staf d)
  ∧ map_Forall (λ (_ : string) m, sqlite_int_ok (harga m) = true) (tbl_menu_harian d).

Definition consistent (st : State) : Prop :=
  coherent st ∧ well_formed (db st).

(** Quotas are never negative. *)
Definition quota_ok (r : staf_row) : Prop :=
  0 ≤ jatah_tersisa r ∧ 0 ≤ jatah_harian r.

Definition quota_inv (d : DB) : Prop :=
  map_Forall (λ (_ : string) r, quota_ok r) (tbl_staf d).

(** The admin row, if there is one, has its full quota. *)
Definition admin_penuh (d : DB) : Prop :=
  ∀ r, tbl_staf d !! ADMIN_BARCODE_ID = Some r → jatah_tersisa r = jatah_harian r.

Global Instance coherent_dec st : Decision (coherent st).
Proof. unfold coherent. apply _. Defined.
Global Instance well_formed_dec d : Decision (well_formed d).
Proof. unfold well_formed. apply _. Defined.
Global Instance consistent_dec st : Decision (consistent st).
Proof. unfold consistent. apply _. Defined.
Global Instance quota_inv_dec d : Decision (quota_inv d).
Proof. unfold quota_inv, quota_ok. apply _. Defined.

(** ** Queries and writes, for statements about all of them *)

Inductive query :=
| QTransactions (from_date to_date departemen_ status_scan : option string)
| QStaf (barcode_id : option string)
| QDepartemen
| QMenu (date_str : string).

Inductive answer :=
| ATransactions (df : list laporan_row)
| AStaf (r : staf_result)
| ADepartemen (l : list string)
| AMenu (m : option menu_dict).

(** The answer of the database itself. *)
Definition query_db (q : query) (d : DB) : answer :=
  match q with
  | QTransactions f t dp s => ATransactions (select_transactions f t dp s d)
  | QStaf b => AStaf (select_staf b d)
  | QDepartemen => ADepartemen (select_departemen d)
  | QMenu ds => AMenu (select_menu ds d)
  end.

(** The answer of the cached reader, at time [now]. *)
Definition read (now : Z) (q : query) : M answer :=
  match q with
  | QTransactions f t dp s =>
      v <- get_transactions_by_date now f t dp s ;; ret (ATransactions v)
  | QStaf b => v <- get_staf_data now b ;; ret (AStaf v)
  | QDepartemen => v <- get_departemen_data now ;; ret (ADepartemen v)
  | QMenu ds => v <- get_menu_today now ds ;; ret (AMenu v)
  end.

Inductive write :=
| WRecord (waktu barcode_id staff_nama menu_ : string) (harga_ : Z) (status : string)
| WReset
| WTambahStaf (new_barcode_id new_nama new_dept : string) (new_jatah : Z)
| WEditStaf (barcode_to_edit edit_nama edit_dept : string) (edit_jatah : Z)
| WHapusStaf (barcode_to_edit : string)
| WTambahDept (new_dept_name : string)
| WMenu (date_str : string) (menu_dict_ : menu_dict)
| WImpor (df_import : DataFrame).

(** Whether the operation reports that it went through. *)
Definition went_through {A} (ok : A → bool) (c : M A) : M bool :=
  λ st,
    match c st with
    | (Ok a, st') => (Ok (ok a), st')
    | (Raise e, st') => (Raise e, st')
    end.

Definition is_berhasil (r : form_result) : bool :=
  match r with Berhasil => true | _ => false end.

Definition perform (w : write) : M bool :=
  match w with
  | WRecord waktu b n m h s => record_transaction waktu b n m h s
  | WReset => reset_jatah_harian
  | WTambahStaf b n d j => went_through is_berhasil (tambah_staf_form b n d j)
  | WEditStaf b n d j => went_through is_berhasil (edit_staf_form b n d j)
  | WHapusStaf b => went_through is_berhasil (delete_staf_button b)
  | WTambahDept n => went_through is_berhasil (form_tambah_dept n)
  | WMenu ds m => save_menu_today ds m
  | WImpor df => went_through (λ _, columns_present df) (import_staf_from_csv df)
  end.

(** When the statements of a write run to the commit: the values can
    be bound, no UNIQUE constraint is hit, the form's own checks pass
    and no exception leaves the import loop. *)
Definition write_valid (w : write) (d : DB) : bool :=
  match w with
  | WRecord _ _ _ _ h _ => sqlite_int_ok h
  | WReset => true
  | WTambahStaf b n _ j =>
      truthy b && truthy n && sqlite_int_ok j && bool_decide (tbl_staf d !! b = None)
  | WEditStaf _ _ _ j => sqlite_int_ok j
  | WHapusStaf _ => true
  | WTambahDept n => truthy n && bool_decide (n ∉ tbl_departemen d)
  | WMenu _ _ => true
  | WImpor df =>
      columns_present df
      && match import_rows (columns df) (records df) (mkAcc d 0 0) with
         | Ok _ => true
         | Raise _ => false
         end
  end.

(** The database that the SQL statements of a write leave. *)
Definition write_db (w : write) (d : DB) : DB :=
  match w with
  | WRecord waktu b n m h s =>
      let d1 := sql_insert_transaksi b TODAY_DATE waktu m h n s d in
      if String.eqb s "SUKSES" then sql_kurangi_jatah b d1 else d1
  | WReset => sql_reset_jatah d
  | WTambahStaf b n dp j => set_staf (insert b (StafRow n dp j j)) d
  | WEditStaf b n dp j => sql_update_staf b (StafRow n dp j j) d
  | WHapusStaf b => sql_delete_staf b d
  | WTambahDept n => sql_insert_ignore_departemen n d
  | WMenu ds m => sql_replace_menu ds m d
  | WImpor df =>
      match import_rows (columns df) (records df) (mkAcc d 0 0) with
      | Ok acc => i_db acc
      | Raise _ => d
      end
  end.

(** The transaction row that a scan appends. *)
Definition scan_row (st : State) (waktu barcode_id staff_nama : string) (m : menu_dict)
    (status : string) : transaksi_row :=
  Transaksi (next_id (tbl_transaksi (db st))) barcode_id TODAY_DATE waktu
    (menu m) (harga m) staff_nama status.

(** A scan that is recorded as GAGAL: one row more, nothing else. *)
Definition gagal_recorded (st st' : State) (waktu barcode_id staff_nama : string)
    (m : menu_dict) : Prop :=
  tbl_transaksi (db st')
    = tbl_transaksi (db st) ++ [scan_row st waktu barcode_id staff_nama m "GAGAL"]
  ∧ tbl_staf (db st') = tbl_staf (db st)
  ∧ tbl_menu_harian (db st') = tbl_menu_harian (db st)
  ∧ tbl_departemen (db st') = tbl_departemen (db st).

(** A property of the state that a function keeps. *)
Definition preserves {A} (P : State → Prop) (c : M A) : Prop :=
  ∀ st, P st → P (after c st).

(** ** Example data

    The scenario of the specification: staff ["1001"] with a quota of
    one and the menu "Nasi Goreng" at 15000, on 2025-01-01. *)

Definition contoh_menu : menu_dict := MenuDict "Nasi Goreng" 15000.

Definition contoh_staf : staf_row := StafRow "Budi Santoso" "Produksi" 1 1.

Definition contoh_admin : staf_row :=
  StafRow "Administrator" ADMIN_DEPARTEMEN_NAME 999 999.

Definition contoh_db : DB :=
  mkDB ({[ADMIN_DEPARTEMEN_NAME]} ∪ {["Produksi"]})
       (<["2025-01-01" := contoh_menu]> ∅)
       (<["1001" := contoh_staf]> (<[ADMIN_BARCODE_ID := contoh_admin]> ∅))
       [].

Definition contoh_state : State := mkState contoh_db empty_cache.

(** The same after the quota of ["1001"] is used up. *)
Definition contoh_habis : State :=
  mkState
    (mkDB (tbl_departemen contoh_db) (tbl_menu_harian contoh_db)
          (<["1001" := StafRow "Budi Santoso" "Produksi" 1 0]> (tbl_staf contoh_db))
          [Transaksi 1 "1001" "2025-01-01" "12:00:00" "Nasi Goreng" 15000
             "Budi Santoso" "SUKSES"])
    empty_cache.


(** A CSV file whose second row has [inf] as its quota; the column is
    then read as floats. *)
Definition df_inf : DataFrame :=
  mkDataFrame ["barcode_id"; "nama"; "departemen"; "jatah_harian"]
    [[CInt 1001; CStr "Budi Santoso"; CStr "Produksi"; CFloat 1];
     [CInt 1002; CStr "Siti Rahma"; CStr "HRD"; CInf false]].

(** The same file with the field left empty. *)
Definition df_nan : DataFrame :=
  mkDataFrame ["barcode_id"; "nama"; "departemen"; "jatah_harian"]
    [[CInt 1001; CStr "Budi Santoso"; CStr "Produksi"; CFloat 1];
     [CInt 1002; CStr "Siti Rahma"; CStr "HRD"; CNaN]].

(** The rows that an import writes, in order: each is the pair of
    statements of an accepted row. *)
Definition write_row (w : string * staf_row) (d : DB) : DB :=
  sql_insert_ignore_departemen (departemen w.2) (sql_replace_staf w.1 w.2 d).

Definition write_rows (ws : list (string * staf_row)) (d : DB) : DB :=
  foldl (λ d w, write_row w d) d ws.

(** What the import checks on a row before it writes it. *)
Definition row_valid (w : string * staf_row) : Prop :=
  w.1 ≠ "" ∧ nama w.2 ≠ "" ∧ departemen w.2 ≠ ""
  ∧ 0 < jatah_harian w.2 ∧ jatah_tersisa w.2 = jatah_harian w.2.

(** ** Lemmas on the cache *)

Lemma cache_call_coherent {K V} `{Countable K}
    (ttl now : Z) (k : K) (f : K → V) (m : gmap K (entry V)) :
  map_Forall (λ k e, cached e = f k) m →
  (cache_call ttl now k (f k) m).1 = f k
  ∧ map_Forall (λ k e, cached e = f k) (cache_call ttl now k (f k) m).2.
Proof.
  intros Hm. unfold cache_call.
  destruct (m !! k) as [e|] eqn:Hk.
  - destruct (now <? created e + ttl); simpl.
    + split; [by apply (Hm k e) | done].
    + split; [done | by apply map_Forall_insert_2].
  - simpl. split; [done | by apply map_Forall_insert_2].
Qed.

Lemma cache_call_empty {K V} `{Countable K} (ttl now : Z) (k : K) (v : V) :
  (cache_call ttl now k v (∅ : gmap K (entry V))).1 = v.
Proof. unfold cache_call. by rewrite lookup_empty. Qed.

Lemma coherent_commit (d : DB) (st : State) : coherent (commit d st).
Proof. repeat split; apply map_Forall_empty. Qed.

Lemma get_menu_today_coherent now date_str st :
  coherent st →
  ∃ st', get_menu_today now date_str st = (Ok (select_menu date_str (db st)), st')
         ∧ db st' = db st ∧ coherent st'.
Proof.
  intros (Ht & Hs & Hd & Hm). unfold get_menu_today.
  destruct (cache_call_coherent 60 now date_str (λ k, select_menu k (db st)) _ Hm)
    as [Hv Hm'].
  destruct (cache_call 60 now date_str _ _) as [v m']; simpl in *. subst v.
  eexists; split; [done|]. by repeat split.
Qed.

Lemma get_staf_data_coherent now barcode_id st :
  coherent st →
  ∃ st', get_staf_data now barcode_id st = (Ok (select_staf barcode_id (db st)), st')
         ∧ db st' = db st ∧ coherent st'.
Proof.
  intros (Ht & Hs & Hd & Hm). unfold get_staf_data.
  destruct (cache_call_coherent 600 now barcode_id (λ k, select_staf k (db st)) _ Hs)
    as [Hv Hs'].
  destruct (cache_call 600 now barcode_id _ _) as [v m']; simpl in *. subst v.
  eexists; split; [done|]. by repeat split.
Qed.

Lemma get_departemen_data_coherent now st :
  coherent st →
  ∃ st', get_departemen_data now st = (Ok (select_departemen (db st)), st')
         ∧ db st' = db st ∧ coherent st'.
Proof.
  intros (Ht & Hs & Hd & Hm). unfold get_departemen_data.
  destruct (cache_call_coherent 3600 now tt (λ _, select_departemen (db st)) _ Hd)
    as [Hv Hd'].
  destruct (cache_call 3600 now tt _ _) as [v m']; simpl in *. subst v.
  eexists; split; [done|]. by repeat split.
Qed.

Lemma get_transactions_by_date_coherent now f t dp s st :
  coherent st →
  ∃ st', get_transactions_by_date now f t dp s st
           = (Ok (select_transactions f t dp s (db st)), st')
         ∧ db st' = db st ∧ coherent st'.
Proof.
  intros (Ht & Hs & Hd & Hm). unfold get_transactions_by_date.
  destruct (cache_call_coherent 300 now (f, t, dp, s)
              (λ k : tx_key, select_transactions k.1.1.1 k.1.1.2 k.1.2 k.2 (db st)) _ Ht)
    as [Hv Ht'].
  simpl in Hv.
  destruct (cache_call 300 now (f, t, dp, s) _ _) as [v m']; simpl in *. subst v.
  eexists; split; [done|]. by repeat split.
Qed.

(** A reader that finds the cache empty asks the database. *)
Lemma read_after_clear now q d :
  (read now q (mkState d empty_cache)).1 = Ok (query_db q d).
Proof.
  destruct q; simpl; unfold bind, get_transactions_by_date, get_staf_data,
    get_departemen_data, get_menu_today, cache_call; simpl;
    by rewrite lookup_empty.
Qed.

(** ** The scan page, branch by branch *)

Lemma select_staf_truthy b d :
  truthy b = true → select_staf (Some b) d = RDict (dict_of b <$> tbl_staf d !! b).
Proof. intros Hb. unfold select_staf. by rewrite Hb. Qed.

Lemma get_staf_data_fresh now b d :
  truthy b = true →
  (get_staf_data now (Some b) (mkState d empty_cache)).1
  = Ok (RDict (dict_of b <$> tbl_staf d !! b)).
Proof.
  intros Hb. unfold get_staf_data, cache_call; simpl.
  by rewrite lookup_empty, Hb.
Qed.

Lemma record_gagal waktu b n m st :
  sqlite_int_ok (harga m) = true →
  ∃ st', record_transaction waktu b n (menu m) (harga m) "GAGAL" st = (Ok true, st')
         ∧ gagal_recorded st st' waktu b n m.
Proof.
  intros Hh. unfold record_transaction. rewrite Hh. simpl.
  eexists; split; [done|]. by repeat split.
Qed.

(** What the page does up to the lookup of the barcode. *)
Lemma scan_page_prefix now waktu b m st :
  consistent st →
  tbl_menu_harian (db st) !! TODAY_DATE = Some m →
  truthy b = true →
  ∃ st1, db st1 = db st
    ∧ scan_page now waktu true b st
      = (match dict_of b <$> tbl_staf (db st) !! b with
         | None =>
             _ <- record_transaction waktu b "N/A" (menu m) (harga m) "GAGAL" ;;
             ret GagalTidakTerdaftar
         | Some staf =>
             if String.eqb (d_barcode_id staf) ADMIN_BARCODE_ID then
               _ <- record_transaction waktu b (d_nama staf) (menu m) (harga m) "GAGAL" ;;
               ret GagalAdmin
             else if d_jatah_tersisa staf <=? 0 then
               _ <- record_transaction waktu b (d_nama staf) (menu m) (harga m) "GAGAL" ;;
               ret (GagalJatahHabis (d_nama staf))
             else
               _ <- record_transaction waktu b (d_nama staf) (menu m) (harga m) "SUKSES" ;;
               staf_after_scan <- get_staf_data now (Some b) ;;
               match staf_after_scan with
               | RDict (Some a) =>
                   ret (Sukses (d_nama a) (d_departemen a) (menu m) (harga m)
                          (d_jatah_tersisa a) (d_jatah_harian a))
               | RDict None => raise TypeError
               | RFrame _ => raise TypeError
               end
         end) st1.
Proof.
  intros [Hc Hwf] Hm Hb.
  destruct (get_menu_today_coherent now TODAY_DATE st Hc) as (st0 & E0 & D0 & C0).
  destruct (get_staf_data_coherent now (Some b) st0 C0) as (st1 & E1 & D1 & C1).
  exists st1. split; [congruence|].
  unfold scan_page, bind at 1. rewrite E0. unfold select_menu. rewrite Hm, Hb. simpl.
  unfold bind at 1. rewrite E1, select_staf_truthy, D0 by done.
  by destruct (tbl_staf (db st) !! b).
Qed.

Lemma get_staf_data_empty now k d :
  get_staf_data now k (mkState d empty_cache)
  = (Ok (select_staf k d),
     mkState d (mkCache ∅ (<[k := Entry now (select_staf k d)]> ∅) ∅ ∅)).
Proof. unfold get_staf_data, cache_call; simpl. by rewrite lookup_empty. Qed.

Lemma record_sukses waktu b n m r st :
  sqlite_int_ok (harga m) = true →
  tbl_staf (db st) !! b = Some r →
  0 < jatah_tersisa r →
  record_transaction waktu b n (menu m) (harga m) "SUKSES" st
  = (Ok true,
     mkState
       (mkDB (tbl_departemen (db st)) (tbl_menu_harian (db st))
          (<[b := decrement_row r]> (tbl_staf (db st)))
          (tbl_transaksi (db st) ++ [scan_row st waktu b n m "SUKSES"]))
       empty_cache).
Proof.
  intros Hh Hr Hq. unfold record_transaction. rewrite Hh. simpl.
  unfold commit, clear_all_caches, sql_kurangi_jatah, set_staf; simpl.
  rewrite Hr. by destruct (0 <? jatah_tersisa r) eqn:Hlt; [|lia].
Qed.

(** C1.  A registered barcode other than the admin's, with quota left
    and today's menu set: the scan appends one SUKSES row with the
    menu's name and price, lowers that row's [jatah_tersisa] by one,
    leaves the other rows alone, and reports the lowered quota. *)
Theorem scan_sukses (now : Z) (waktu b : string) (r : staf_row) (m : menu_dict)
    (st : State) :
  consistent st →
  tbl_menu_harian (db st) !! TODAY_DATE = Some m →
  tbl_staf (db st) !! b = Some r →
  0 < jatah_tersisa r →
  b ≠ ADMIN_BARCODE_ID →
  ∃ st',
    scan_page now waktu true b st
    = (Ok (Sukses (nama r) (departemen r) (menu m) (harga m)
             (jatah_tersisa r - 1) (jatah_harian r)), st')
    ∧ tbl_transaksi (db st')
      = tbl_transaksi (db st) ++ [scan_row st waktu b (nama r) m "SUKSES"]
    ∧ tbl_staf (db st') !! b
      = Some (StafRow (nama r) (departemen r) (jatah_harian r) (jatah_tersisa r - 1))
    ∧ (∀ b', b' ≠ b → tbl_staf (db st') !! b' = tbl_staf (db st) !! b')
    ∧ tbl_menu_harian (db st') = tbl_menu_harian (db st)
    ∧ tbl_departemen (db st') = tbl_departemen (db st).
Proof.
  intros Hst Hm Hr Hq Hb.
  assert (truthy b = true) as Ht by (by apply (proj1 (proj2 Hst) b r)).
  assert (sqlite_int_ok (harga m) = true) as Hh
    by (by apply (proj2 (proj2 Hst) TODAY_DATE m)).
  destruct (scan_page_prefix now waktu b m st Hst Hm Ht) as (st1 & D1 & ->).
  rewrite Hr. simpl.
  apply String.eqb_neq in Hb. rewrite Hb.
  destruct (jatah_tersisa r <=? 0) eqn:Hle; [lia|].
  rewrite <- D1 in Hr.
  unfold bind at 1. rewrite (record_sukses waktu b (nama r) m r st1 Hh Hr Hq).
  unfold bind at 1. rewrite get_staf_data_empty, select_staf_truthy by done.
  simpl. rewrite lookup_insert_eq. simpl.
  eexists; split; [done|]. simpl. unfold scan_row. rewrite D1.
  split; [done|]. split; [by rewrite lookup_insert_eq|].
  split; [|done]. intros b' Hne. by rewrite lookup_insert_ne.
Qed.

(** C4, amended.  A non-empty barcode that matches no staff row, with
    today's menu set: the scan appends one GAGAL row with [staff_nama]
    ["N/A"] and the menu's name and price, and changes no other table. *)
Theorem scan_tidak_terdaftar (now : Z) (waktu b : string) (m : menu_dict) (st : State) :
  consistent st →
  tbl_menu_harian (db st) !! TODAY_DATE = Some m →
  tbl_staf (db st) !! b = None →
  b ≠ "" →
  ∃ st',
    scan_page now waktu true b st = (Ok GagalTidakTerdaftar, st')
    ∧ tbl_transaksi (db st')
      = tbl_transaksi (db st)
        ++ [Transaksi (next_id (tbl_transaksi (db st))) b TODAY_DATE waktu
              (menu m) (harga m) "N/A" "GAGAL"]
    ∧ tbl_staf (db st') = tbl_staf (db st)
    ∧ tbl_menu_harian (db st') = tbl_menu_harian (db st)
    ∧ tbl_departemen (db st') = tbl_departemen (db st).
Proof.
  intros Hst Hm Hr Hb.
  assert (truthy b = true) as Ht by (by destruct b).
  assert (sqlite_int_ok (harga m) = true) as Hh
    by (by apply (proj2 (proj2 Hst) TODAY_DATE m)).
  destruct (scan_page_prefix now waktu b m st Hst Hm Ht) as (st1 & D1 & ->).
  rewrite Hr. simpl.
  destruct (record_gagal waktu b "N/A" m st1 Hh) as (st' & E & G).
  unfold bind. rewrite E. exists st'. split; [done|].
  unfold gagal_recorded, scan_row in G. by rewrite D1 in G.
Qed.

(** C5.  A registered barcode whose row has [jatah_tersisa = 0], with
    today's menu set: the scan appends one GAGAL row and leaves the
    staff table as it was. *)
Theorem scan_jatah_habis (now : Z) (waktu b : string) (r : staf_row) (m : menu_dict)
    (st : State) :
  consistent st →
  tbl_menu_harian (db st) !! TODAY_DATE = Some m →
  tbl_staf (db st) !! b = Some r →
  jatah_tersisa r = 0 →
  ∃ st',
    scan_page now waktu true b st
    = (Ok (if String.eqb b ADMIN_BARCODE_ID then GagalAdmin
           else GagalJatahHabis (nama r)), st')
    ∧ tbl_transaksi (db st')
      = tbl_transaksi (db st)
        ++ [Transaksi (next_id (tbl_transaksi (db st))) b TODAY_DATE waktu
              (menu m) (harga m) (nama r) "GAGAL"]
    ∧ tbl_staf (db st') = tbl_staf (db st)
    ∧ tbl_staf (db st') !! b = Some r.
Proof.
  intros Hst Hm Hr Hq.
  assert (truthy b = true) as Ht by (by apply (proj1 (proj2 Hst) b r)).
  assert (sqlite_int_ok (harga m) = true) as Hh
    by (by apply (proj2 (proj2 Hst) TODAY_DATE m)).
  destruct (scan_page_prefix now waktu b m st Hst Hm Ht) as (st1 & D1 & ->).
  rewrite Hr. simpl.
  destruct (record_gagal waktu b (nama r) m st1 Hh) as (st' & E & G).
  unfold gagal_recorded, scan_row in G. rewrite D1 in G.
  destruct G as (G1 & G2 & _).
  exists st'. rewrite Hq. simpl.
  destruct (String.eqb b ADMIN_BARCODE_ID); unfold bind; rewrite E;
    (split; [done|]); by rewrite G1, G2.
Qed.

(** C6.  The admin barcode, with today's menu set: whatever the admin
    row holds, and also when there is none, the scan appends one GAGAL
    row and leaves the staff table as it was. *)
Theorem scan_admin (now : Z) (waktu : string) (m : menu_dict) (st : State) :
  consistent st →
  tbl_menu_harian (db st) !! TODAY_DATE = Some m →
  ∃ st',
    scan_page now waktu true ADMIN_BARCODE_ID st
    = (Ok (match tbl_staf (db st) !! ADMIN_BARCODE_ID with
           | Some _ => GagalAdmin
           | None => GagalTidakTerdaftar
           end), st')
    ∧ tbl_transaksi (db st')
      = tbl_transaksi (db st)
        ++ [Transaksi (next_id (tbl_transaksi (db st))) ADMIN_BARCODE_ID TODAY_DATE
              waktu (menu m) (harga m)
              (from_option nama "N/A" (tbl_staf (db st) !! ADMIN_BARCODE_ID))
              "GAGAL"]
    ∧ tbl_staf (db st') = tbl_staf (db st).
Proof.
  intros Hst Hm.
  assert (sqlite_int_ok (harga m) = true) as Hh
    by (by apply (proj2 (proj2 Hst) TODAY_DATE m)).
  destruct (scan_page_prefix now waktu ADMIN_BARCODE_ID m st Hst Hm eq_refl)
    as (st1 & D1 & ->).
  destruct (tbl_staf (db st) !! ADMIN_BARCODE_ID) as [r|]; simpl.
  - destruct (record_gagal waktu ADMIN_BARCODE_ID (nama r) m st1 Hh) as (st' & E & G).
    unfold gagal_recorded, scan_row in G. rewrite D1 in G.
    destruct G as (G1 & G2 & _).
    exists st'. unfold bind. by rewrite E.
  - destruct (record_gagal waktu ADMIN_BARCODE_ID "N/A" m st1 Hh) as (st' & E & G).
    unfold gagal_recorded, scan_row in G. rewrite D1 in G.
    destruct G as (G1 & G2 & _).
    exists st'. unfold bind. by rewrite E.
Qed.

(** C7.  No menu for today: whatever is submitted, the page stops at
    the warning and the database is as it was. *)
Theorem scan_menu_belum_diatur (now : Z) (waktu : string) (submitted : bool)
    (barcode_input : string) (st : State) :
  coherent st →
  tbl_menu_harian (db st) !! TODAY_DATE = None →
  ∃ st',
    scan_page now waktu submitted barcode_input st = (Ok MenuBelumDiatur, st')
    ∧ db st' = db st.
Proof.
  intros Hc Hm.
  destruct (get_menu_today_coherent now TODAY_DATE st Hc) as (st0 & E0 & D0 & _).
  exists st0. unfold scan_page, bind. rewrite E0. unfold select_menu. by rewrite Hm.
Qed.

(** ** Writes and the cache *)

Lemma read_empty_cache now q st :
  cache st = empty_cache → (read now q st).1 = Ok (query_db q (db st)).
Proof. destruct st as [d c]; simpl. intros ->. apply read_after_clear. Qed.

(** C3.  Each of the eight writers, when its statements run to the
    commit, returns success, leaves the database that its statements
    produce and leaves the cache empty, so that every reader called
    afterwards, at any time and whatever was cached before, returns
    what the database holds after the write.  A writer that is stopped
    before the commit (a value that cannot be bound, a UNIQUE
    constraint, a failed check of the form, an exception in the import
    loop) reports no success and changes neither database nor cache. *)
Theorem write_clears_cache (w : write) (st : State) :
  (write_valid w (db st) = true →
   ∃ st',
     perform w st = (Ok true, st')
     ∧ db st' = write_db w (db st)
     ∧ cache st' = empty_cache
     ∧ ∀ now q, (read now q st').1 = Ok (query_db q (write_db w (db st))))
  ∧ (write_valid w (db st) = false →
     ∃ res, perform w st = (res, st) ∧ res ≠ Ok true)
  ∧ match perform w st with
    | (Ok true, st') =>
        cache st' = empty_cache
        ∧ ∀ now q, (read now q st').1 = Ok (query_db q (db st'))
    | (_, st') => st' = st
    end.
Proof.
  assert (∀ d, cache (commit d st) = empty_cache
               ∧ ∀ now q, (read now q (commit d st)).1
                          = Ok (query_db q (db (commit d st)))) as Hc.
  { intros d. split; [done|]. intros now q. by apply read_empty_cache. }
  assert (∀ d, ∃ st',
            (Ok true, commit d st) = (Ok true, st')
            ∧ db st' = d
            ∧ cache st' = empty_cache
            ∧ ∀ now q, (read now q st').1 = Ok (query_db q d)) as Hw.
  { intros d. exists (commit d st). split; [done|]. split; [done|]. apply (Hc d). }
  destruct w; simpl; unfold went_through.
  - unfold record_transaction. destruct (sqlite_int_ok harga_).
    + split; [intros _; apply Hw|]. split; [done | apply Hc].
    + split; [done|]. split; [intros _; by eexists | done].
  - unfold reset_jatah_harian.
    split; [intros _; apply Hw|]. split; [done | apply Hc].
  - unfold tambah_staf_form.
    destruct (truthy new_barcode_id); simpl;
      [|split; [done|]; split; [intros _; by eexists | done]].
    destruct (truthy new_nama); simpl;
      [|split; [done|]; split; [intros _; by eexists | done]].
    destruct (sqlite_int_ok new_jatah); simpl;
      [|split; [done|]; split; [intros _; by eexists | done]].
    destruct (tbl_staf (db st) !! new_barcode_id) as [r|] eqn:E.
    + rewrite bool_decide_eq_false_2 by done.
      split; [done|]. split; [intros _; by eexists | done].
    + rewrite bool_decide_eq_true_2 by done.
      split; [intros _; apply Hw|]. split; [done | apply Hc].
  - unfold edit_staf_form. destruct (sqlite_int_ok edit_jatah); simpl.
    + split; [intros _; apply Hw|]. split; [done | apply Hc].
    + split; [done|]. split; [intros _; by eexists | done].
  - split; [intros _; apply Hw|]. split; [done | apply Hc].
  - unfold form_tambah_dept.
    destruct (truthy new_dept_name); simpl;
      [|split; [done|]; split; [intros _; by eexists | done]].
    destruct (decide (new_dept_name ∈ tbl_departemen (db st))) as [Hin|Hin].
    + rewrite bool_decide_eq_false_2 by (by intros ?).
      split; [done|]. split; [intros _; by eexists | done].
    + rewrite bool_decide_eq_true_2 by done.
      split; [intros _; apply Hw|]. split; [done | apply Hc].
  - unfold save_menu_today.
    split; [intros _; apply Hw|]. split; [done | apply Hc].
  - unfold import_staf_from_csv.
    destruct (columns_present df_import) eqn:Ecol; simpl;
      [|split; [done|]; split; [intros _; by eexists | done]].
    destruct (import_rows _ _ _) as [acc|e]; simpl.
    + split; [intros _; apply Hw|]. split; [done | apply Hc].
    + split; [done|]. split; [intros _; by eexists | done].
Qed.

(** ** Reset of the daily quota *)

(** C8.  The reset always goes through and is one map over the whole
    table: afterwards every row has [jatah_tersisa = jatah_harian] and
    its other columns as before, no row is added or removed, and the
    other tables are as before.  The statement has no clause for the
    admin's barcode, so its row is set like the others; where it has
    its full quota already, as in every state of a session, it is
    unchanged. *)
Theorem reset_jatah_harian_all_rows (st : State) :
  ∃ st',
    reset_jatah_harian st = (Ok true, st')
    ∧ (∀ b,
         tbl_staf (db st') !! b
         = (λ r, StafRow (nama r) (departemen r) (jatah_harian r) (jatah_harian r))
             <$> tbl_staf (db st) !! b)
    ∧ (admin_penuh (db st) →
       tbl_staf (db st') !! ADMIN_BARCODE_ID = tbl_staf (db st) !! ADMIN_BARCODE_ID)
    ∧ tbl_transaksi (db st') = tbl_transaksi (db st)
    ∧ tbl_menu_harian (db st') = tbl_menu_harian (db st)
    ∧ tbl_departemen (db st') = tbl_departemen (db st).
Proof.
  eexists. split; [done|]. simpl. split; [|split; [|done]].
  - intros b. by rewrite lookup_fmap.
  - intros Ha. rewrite lookup_fmap.
    destruct (tbl_staf (db st) !! ADMIN_BARCODE_ID) as [r|] eqn:E; [|done].
    pose proof (Ha r E) as Hr. destruct r as [n d h t]. simpl in *. by subst t.
Qed.

(** ** Quotas stay non-negative *)

Lemma get_menu_today_db now ds st :
  ∃ v st', get_menu_today now ds st = (Ok v, st') ∧ db st' = db st.
Proof. unfold get_menu_today. destruct (cache_call _ _ _ _ _); eauto. Qed.

Lemma get_staf_data_db now k st :
  ∃ v st', get_staf_data now k st = (Ok v, st') ∧ db st' = db st.
Proof. unfold get_staf_data. destruct (cache_call _ _ _ _ _); eauto. Qed.

Lemma get_departemen_data_db now st :
  ∃ v st', get_departemen_data now st = (Ok v, st') ∧ db st' = db st.
Proof. unfold get_departemen_data. destruct (cache_call _ _ _ _ _); eauto. Qed.

Lemma get_transactions_by_date_db now f t dp s st :
  ∃ v st', get_transactions_by_date now f t dp s st = (Ok v, st') ∧ db st' = db st.
Proof. unfold get_transactions_by_date. destruct (cache_call _ _ _ _ _); eauto. Qed.

(** The rows of [staf] after [record_transaction]: each is as before,
    or is the scanned row, lowered by one from a positive value under
    status SUKSES. *)
Lemma record_transaction_rows waktu b n mn h s st b' r' :
  tbl_staf (db st) !! b' = Some r' →
  tbl_staf (db (after (record_transaction waktu b n mn h s) st)) !! b' = Some r'
  ∨ (b' = b ∧ s = "SUKSES" ∧ 0 < jatah_tersisa r'
     ∧ tbl_staf (db (after (record_transaction waktu b n mn h s) st)) !! b'
       = Some (StafRow (nama r') (departemen r') (jatah_harian r')
                 (jatah_tersisa r' - 1))).
Proof.
  intros Hr. unfold after, record_transaction.
  destruct (sqlite_int_ok h); simpl; [|by left].
  destruct (String.eqb s "SUKSES") eqn:Hs; simpl; [|by left].
  apply String.eqb_eq in Hs.
  destruct (tbl_staf (db st) !! b) as [r|] eqn:Hb; [|by left].
  destruct (0 <? jatah_tersisa r) eqn:Hq; [|by left].
  destruct (decide (b' = b)) as [->|Hne].
  - right. rewrite lookup_insert_eq. simplify_eq.
    split; [done|]. split; [done|]. split; [lia|done].
  - left. by rewrite lookup_insert_ne.
Qed.

Lemma record_transaction_dom waktu b n mn h s st b' :
  tbl_staf (db st) !! b' = None →
  tbl_staf (db (after (record_transaction waktu b n mn h s) st)) !! b' = None.
Proof.
  intros Hr. unfold after, record_transaction.
  destruct (sqlite_int_ok h); simpl; [|done].
  destruct (String.eqb s "SUKSES"); simpl; [|done].
  destruct (tbl_staf (db st) !! b) as [r|] eqn:Hb; [|done].
  destruct (0 <? jatah_tersisa r); [|done].
  rewrite lookup_insert_ne; [done|]. intros ->. congruence.
Qed.

Lemma record_transaction_quota waktu b n mn h s st :
  quota_inv (db st) → quota_inv (db (after (record_transaction waktu b n mn h s) st)).
Proof.
  intros Hq b' r2 Hr2.
  destruct (tbl_staf (db st) !! b') as [r'|] eqn:Hr'.
  - pose proof (Hq b' r' Hr') as [H1 H2].
    destruct (record_transaction_rows waktu b n mn h s st b' r' Hr')
      as [E|(_ & _ & Hpos & E)]; rewrite E in Hr2; simplify_eq; split; simpl; lia.
  - by rewrite (record_transaction_dom waktu b n mn h s st b' Hr') in Hr2.
Qed.

Lemma preserves_ret {A} (P : State → Prop) (a : A) : preserves P (ret a).
Proof. by intros st. Qed.

Lemma preserves_raise {A} (P : State → Prop) (e : exn) : preserves P (raise (A:=A) e).
Proof. by intros st. Qed.

Lemma preserves_bind {A B} (P : State → Prop) (c : M A) (k : A → M B) :
  preserves P c → (∀ a, preserves P (k a)) → preserves P (bind c k).
Proof.
  intros Hc Hk st HP. unfold after, bind.
  specialize (Hc st HP). unfold after in Hc.
  destruct (c st) as [[a|e] st']; simpl in *; [by apply Hk | done].
Qed.

(** The scan page keeps what its two readers and
    [record_transaction] keep. *)
Lemma scan_page_preserves (P : State → Prop) now waktu submitted b :
  (∀ ds, preserves P (get_menu_today now ds)) →
  (∀ k, preserves P (get_staf_data now k)) →
  (∀ n mn h s, preserves P (record_transaction waktu b n mn h s)) →
  preserves P (scan_page now waktu submitted b).
Proof.
  intros Hm Hs Hr. unfold scan_page.
  apply preserves_bind; [done|]. intros [m|]; [|apply preserves_ret].
  destruct (submitted && truthy b); [|apply preserves_ret].
  apply preserves_bind; [done|]. intros [[sd|]|]; [| |apply preserves_raise].
  - destruct (String.eqb (d_barcode_id sd) ADMIN_BARCODE_ID);
      [|destruct (d_jatah_tersisa sd <=? 0)];
      (apply preserves_bind; [done|]; intros _); try apply preserves_ret.
    apply preserves_bind; [done|].
    intros [[a|]|]; [apply preserves_ret | apply preserves_raise..].
  - apply preserves_bind; [done|]. intros _. apply preserves_ret.
Qed.

Lemma get_menu_today_preserves_db (P : DB → Prop) now ds :
  preserves (λ st, P (db st)) (get_menu_today now ds).
Proof.
  intros st HP. unfold after.
  destruct (get_menu_today_db now ds st) as (v & st' & -> & D). simpl. by rewrite D.
Qed.

Lemma get_staf_data_preserves_db (P : DB → Prop) now k :
  preserves (λ st, P (db st)) (get_staf_data now k).
Proof.
  intros st HP. unfold after.
  destruct (get_staf_data_db now k st) as (v & st' & -> & D). simpl. by rewrite D.
Qed.

Lemma get_departemen_data_preserves_db (P : DB → Prop) now :
  preserves (λ st, P (db st)) (get_departemen_data now).
Proof.
  intros st HP. unfold after.
  destruct (get_departemen_data_db now st) as (v & st' & -> & D). simpl. by rewrite D.
Qed.

Lemma get_transactions_by_date_preserves_db (P : DB → Prop) now f t dp s :
  preserves (λ st, P (db st)) (get_transactions_by_date now f t dp s).
Proof.
  intros st HP. unfold after.
  destruct (get_transactions_by_date_db now f t dp s st) as (v & st' & -> & D).
  simpl. by rewrite D.
Qed.

Lemma scan_page_quota now waktu submitted b :
  preserves (λ st, quota_inv (db st)) (scan_page now waktu submitted b).
Proof.
  apply scan_page_preserves.
  - intros. apply (get_menu_today_preserves_db quota_inv).
  - intros. apply (get_staf_data_preserves_db quota_inv).
  - intros n mn h s st. apply record_transaction_quota.
Qed.

Lemma import_row_quota cols row acc acc' :
  quota_inv (i_db acc) → import_row cols row acc = Ok acc' → quota_inv (i_db acc').
Proof.
  intros Hq. unfold import_row.
  destruct (py_int _) as [jatah|[]]; [| |done..].
  - destruct (_ || (jatah <=? 0)) eqn:Hbad; [by intros [= <-]|].
    destruct (sqlite_int_ok jatah); [|by intros [= <-]].
    intros [= <-]. simpl.
    apply orb_false_iff in Hbad as [_ Hj].
    apply map_Forall_insert_2; [split; simpl; lia | done].
  - by intros [= <-].
Qed.

Lemma import_rows_quota cols rows acc acc' :
  quota_inv (i_db acc) → import_rows cols rows acc = Ok acc' → quota_inv (i_db acc').
Proof.
  revert acc. induction rows as [|row rows IH]; intros acc Hq; simpl.
  - by intros [= <-].
  - destruct (import_row cols row acc) as [acc1|] eqn:E; [|done].
    apply IH. by eapply import_row_quota.
Qed.

Lemma step_quota r st :
  widget_ok r = true → quota_inv (db st) → quota_inv (db (step r st)).
Proof.
  intros Hw Hq. destruct r; simpl in *; unfold after.
  - unfold setup_database; simpl.
    destruct (tbl_staf (db st) !! ADMIN_BARCODE_ID);
      destruct (decide _); simpl; try done;
      (apply map_Forall_insert_2; [by split|done]).
  - by apply scan_page_quota.
  - unfold quota_inv, sql_reset_jatah; simpl. intros b r. rewrite lookup_fmap.
    destruct (tbl_staf (db st) !! b) as [r0|] eqn:E; [|done].
    intros [= <-]. destruct (Hq b r0 E). by split.
  - unfold tambah_staf_form.
    destruct (_ || _); [done|]. destruct (negb _); [done|].
    destruct (tbl_staf (db st) !! new_barcode_id); [done|]. simpl.
    unfold number_input_ok in Hw. apply andb_true_iff in Hw as [Hw _].
    apply map_Forall_insert_2; [split; simpl; lia | done].
  - unfold edit_staf_form. destruct (negb _); [done|]. simpl.
    unfold number_input_ok in Hw. apply andb_true_iff in Hw as [Hw _].
    unfold quota_inv, sql_update_staf; simpl.
    destruct (tbl_staf (db st) !! barcode_to_edit); [|done].
    apply map_Forall_insert_2; [split; simpl; lia | done].
  - unfold quota_inv, sql_delete_staf; simpl. by apply map_Forall_delete.
  - unfold import_staf_from_csv.
    destruct (columns_present df_import); [|done].
    destruct (import_rows _ _ _) as [acc|] eqn:E; [|done].
    simpl. by apply (import_rows_quota _ _ (mkAcc (db st) 0 0) acc Hq E).
  - unfold form_tambah_dept. destruct (negb _); [done|]. by destruct (decide _).
  - unfold form_menu_harian. by destruct (_ || _).
  - by apply (get_transactions_by_date_preserves_db quota_inv).
  - by apply (get_staf_data_preserves_db quota_inv).
  - by apply (get_departemen_data_preserves_db quota_inv).
  - by apply (get_menu_today_preserves_db quota_inv).
Qed.

Lemma run_quota rs st :
  forallb widget_ok rs = true → quota_inv (db st) → quota_inv (db (run rs st)).
Proof.
  revert st. induction rs as [|r rs IH]; intros st Hw Hq; simpl; [done|].
  simpl in Hw. apply andb_true_iff in Hw as [Hr Hrs].
  apply IH; [done|]. by apply step_quota.
Qed.

Lemma quota_inv_initial : quota_inv (db initial_state).
Proof.
  apply (step_quota ReqSetup); [done|]. apply map_Forall_empty.
Qed.

(** C2.  From a database whose quotas are non-negative, and so from
    the initial one, no sequence of requests makes a [jatah_tersisa]
    negative; and in the state reached, [record_transaction] lowers a
    row only if it is the scanned one, the status is SUKSES and its
    [jatah_tersisa] is positive. *)
Theorem jatah_tersisa_never_negative (rs : list request) (st : State) :
  quota_inv (db st) →
  forallb widget_ok rs = true →
  (∀ b r, tbl_staf (db (run rs st)) !! b = Some r → 0 ≤ jatah_tersisa r)
  ∧ (∀ waktu b n mn h s b' r',
       tbl_staf (db (run rs st)) !! b' = Some r' →
       tbl_staf (db (after (record_transaction waktu b n mn h s) (run rs st))) !! b'
       = Some r'
       ∨ (b' = b ∧ s = "SUKSES" ∧ 0 < jatah_tersisa r'
          ∧ tbl_staf (db (after (record_transaction waktu b n mn h s) (run rs st))) !! b'
            = Some (StafRow (nama r') (departemen r') (jatah_harian r')
                      (jatah_tersisa r' - 1)))).
Proof.
  intros Hq Hw. split.
  - intros b r Hr. by destruct (run_quota rs st Hw Hq b r Hr).
  - intros. by apply record_transaction_rows.
Qed.

(** ** What every request keeps *)

Lemma number_input_sqlite min_value v :
  0 ≤ min_value → number_input_ok min_value v = true → sqlite_int_ok v = true.
Proof.
  unfold number_input_ok, sqlite_int_ok. intros Hmin Hv.
  apply andb_true_iff in Hv as [H1%Z.leb_le H2%Z.leb_le].
  apply andb_true_iff. split; [apply Z.leb_le | apply Z.ltb_lt]; lia.
Qed.

Lemma reader_keeps_consistent {A} (c : M A) (v : DB → A) :
  (∀ st, coherent st → ∃ st', c st = (Ok (v (db st)), st') ∧ db st' = db st ∧ coherent st') →
  preserves consistent c.
Proof.
  intros Hc st [Hcoh Hwf]. unfold after.
  destruct (Hc st Hcoh) as (st' & -> & D & Hcoh'). simpl.
  split; [done | by rewrite D].
Qed.

Lemma record_transaction_consistent waktu b n mn h s :
  preserves consistent (record_transaction waktu b n mn h s).
Proof.
  intros st [Hcoh [Hk Hp]]. unfold after, record_transaction.
  destruct (sqlite_int_ok h); [|done]. simpl.
  split; [apply coherent_commit|]. simpl.
  destruct (String.eqb s "SUKSES"); simpl; [|by split].
  split; [|done]. simpl.
  destruct (tbl_staf (db st) !! b) as [r|] eqn:Hb; [|done].
  destruct (0 <? jatah_tersisa r); [|done].
  apply map_Forall_insert_2; [by apply (Hk b r) | done].
Qed.

Lemma scan_page_consistent now waktu submitted b :
  preserves consistent (scan_page now waktu submitted b).
Proof.
  apply scan_page_preserves.
  - intros ds. apply (reader_keeps_consistent _ (select_menu ds)).
    intros st. apply get_menu_today_coherent.
  - intros k. apply (reader_keeps_consistent _ (select_staf k)).
    intros st. apply get_staf_data_coherent.
  - intros. apply record_transaction_consistent.
Qed.

Lemma import_row_well_formed cols row acc acc' :
  well_formed (i_db acc) → import_row cols row acc = Ok acc' → well_formed (i_db acc').
Proof.
  intros [Hk Hp]. unfold import_row.
  destruct (py_int _) as [jatah|[]]; [| |done..].
  - destruct (_ || (jatah <=? 0)) eqn:Hbad; [by intros [= <-]|].
    destruct (sqlite_int_ok jatah); [|by intros [= <-]].
    intros [= <-]. split; [|done]. simpl.
    apply orb_false_iff in Hbad as [Hbad _].
    apply orb_false_iff in Hbad as [Hbad _].
    apply orb_false_iff in Hbad as [Hbad _].
    apply negb_false_iff in Hbad.
    by apply map_Forall_insert_2.
  - by intros [= <-].
Qed.

Lemma import_rows_well_formed cols rows acc acc' :
  well_formed (i_db acc) → import_rows cols rows acc = Ok acc' → well_formed (i_db acc').
Proof.
  revert acc. induction rows as [|row rows IH]; intros acc Hq; simpl.
  - by intros [= <-].
  - destruct (import_row cols row acc) as [acc1|] eqn:E; [|done].
    apply IH. by eapply import_row_well_formed.
Qed.

Lemma step_consistent r st :
  widget_ok r = true → r ≠ ReqSetup → consistent st → consistent (step r st).
Proof.
  intros Hw Hr Hst. pose proof Hst as [Hcoh [Hk Hp]].
  destruct r; simpl in *; unfold after; try done.
  - by apply scan_page_consistent.
  - split; [apply coherent_commit|]. split; [|done]. simpl.
    by apply map_Forall_fmap.
  - unfold tambah_staf_form.
    destruct (truthy new_barcode_id) eqn:Hb; simpl; [|done].
    destruct (truthy new_nama); simpl; [|done].
    destruct (sqlite_int_ok new_jatah); simpl; [|done].
    destruct (tbl_staf (db st) !! new_barcode_id); [done|].
    split; [apply coherent_commit|]. split; [|done]. simpl.
    by apply map_Forall_insert_2.
  - unfold edit_staf_form. destruct (negb _); [done|].
    split; [apply coherent_commit|]. split; [|done]. simpl.
    destruct (tbl_staf (db st) !! barcode_to_edit) as [r|] eqn:E; [|done].
    apply map_Forall_insert_2; [by apply (Hk _ r) | done].
  - split; [apply coherent_commit|]. split; [|done]. simpl.
    by apply map_Forall_delete.
  - unfold import_staf_from_csv.
    destruct (columns_present df_import); [|done].
    destruct (import_rows _ _ _) as [acc|] eqn:E; [|done].
    split; [apply coherent_commit|]. simpl.
    by apply (import_rows_well_formed _ _ (mkAcc (db st) 0 0) acc (proj2 Hst) E).
  - unfold form_tambah_dept. destruct (negb _); [done|].
    destruct (decide _); [done|].
    split; [apply coherent_commit | done].
  - unfold form_menu_harian. destruct (_ || _); [done|].
    split; [apply coherent_commit|]. split; [done|]. simpl.
    apply map_Forall_insert_2; [|done]. simpl.
    by apply (number_input_sqlite 100).
  - apply (reader_keeps_consistent _
             (select_transactions from_date to_date departemen_ status_scan));
      [|done].
    intros st0. apply get_transactions_by_date_coherent.
  - apply (reader_keeps_consistent _ (select_staf barcode_id)); [|done].
    intros st0. apply get_staf_data_coherent.
  - apply (reader_keeps_consistent _ select_departemen); [|done].
    intros st0. apply get_departemen_data_coherent.
  - apply (reader_keeps_consistent _ (select_menu TODAY_DATE)); [|done].
    intros st0. apply get_menu_today_coherent.
Qed.

(** On a database that holds the admin row and the admin department,
    [setup_database] writes nothing. *)
Lemma setup_database_seeded st :
  is_Some (tbl_staf (db st) !! ADMIN_BARCODE_ID) →
  ADMIN_DEPARTEMEN_NAME ∈ tbl_departemen (db st) →
  setup_database st = (Ok tt, st).
Proof.
  intros [r Hr] Hd. unfold setup_database. rewrite Hr.
  destruct (decide _); [|done]. by destruct st.
Qed.

Lemma consistent_initial : consistent initial_state.
Proof.
  split; [repeat split; apply map_Forall_empty|].
  split; simpl.
  - apply map_Forall_insert_2; [done | apply map_Forall_empty].
  - apply map_Forall_empty.
Qed.

Lemma run_consistent rs st :
  forallb widget_ok rs = true → ReqSetup ∉ rs →
  consistent st → consistent (run rs st).
Proof.
  revert st. induction rs as [|r rs IH]; intros st Hw Hn Hst; simpl; [done|].
  simpl in Hw. apply andb_true_iff in Hw as [Hr Hrs].
  apply not_elem_of_cons in Hn as [Hne Hn].
  apply IH; [done..|]. by apply step_consistent.
Qed.

(** ** The admin row keeps its full quota *)

Lemma record_transaction_staf waktu b n mn h s st :
  tbl_staf (db (after (record_transaction waktu b n mn h s) st)) = tbl_staf (db st)
  ∨ (s = "SUKSES"
     ∧ ∃ r, tbl_staf (db st) !! b = Some r
            ∧ tbl_staf (db (after (record_transaction waktu b n mn h s) st))
              = <[b := decrement_row r]> (tbl_staf (db st))).
Proof.
  unfold after, record_transaction.
  destruct (sqlite_int_ok h); simpl; [|by left].
  destruct (String.eqb s "SUKSES") eqn:Hs; simpl; [|by left].
  apply String.eqb_eq in Hs.
  destruct (tbl_staf (db st) !! b) as [r|] eqn:Hb; [|by left].
  destruct (0 <? jatah_tersisa r); [|by left].
  right. split; [done|]. by exists r.
Qed.

(** On a coherent state the scan page lowers no row but the scanned
    one, and never the admin's. *)
Lemma scan_page_staf now waktu submitted b st :
  coherent st →
  tbl_staf (db (after (scan_page now waktu submitted b) st)) = tbl_staf (db st)
  ∨ (b ≠ ADMIN_BARCODE_ID
     ∧ ∃ r, tbl_staf (db st) !! b = Some r
            ∧ tbl_staf (db (after (scan_page now waktu submitted b) st))
              = <[b := decrement_row r]> (tbl_staf (db st))).
Proof.
  intros Hc. unfold after.
  destruct (scan_page now waktu submitted b st) as [res st'] eqn:E. simpl.
  revert E. unfold scan_page, bind at 1.
  destruct (get_menu_today_coherent now TODAY_DATE st Hc) as (st0 & -> & D0 & C0).
  destruct (select_menu TODAY_DATE (db st)) as [m|];
    [|intros [= <- <-]; left; by rewrite D0].
  destruct (submitted && truthy b) eqn:Hs;
    [|intros [= <- <-]; left; by rewrite D0].
  apply andb_true_iff in Hs as [_ Ht].
  unfold bind at 1.
  destruct (get_staf_data_coherent now (Some b) st0 C0) as (st1 & -> & D1 & C1).
  rewrite select_staf_truthy, D0 by done.
  assert (db st1 = db st) as D by congruence.
  assert (∀ n (k : bool → M scan_result),
            (∀ x s2 res2 s3, k x s2 = (res2, s3) → db s3 = db s2) →
            bind (record_transaction waktu b n (menu m) (harga m) "GAGAL") k st1
            = (res, st') →
            tbl_staf (db st') = tbl_staf (db st)) as Hgagal.
  { intros n k Hk. unfold bind.
    destruct (record_transaction_staf waktu b n (menu m) (harga m) "GAGAL" st1)
      as [Hs|[? _]]; [|done].
    unfold after in Hs.
    destruct (record_transaction waktu b n (menu m) (harga m) "GAGAL" st1)
      as [[x|e] s2]; simpl in Hs.
    - intros Hk'%Hk. by rewrite Hk', Hs, D.
    - intros [= <- <-]. by rewrite Hs, D. }
  destruct (tbl_staf (db st) !! b) as [r|] eqn:Hr; simpl.
  - destruct (String.eqb b ADMIN_BARCODE_ID) eqn:Hb;
      [|destruct (jatah_tersisa r <=? 0)].
    + intros E. left. apply Hgagal in E; [done|]. by intros x s2 res2 s3 [= <- <-].
    + intros E. left. apply Hgagal in E; [done|]. by intros x s2 res2 s3 [= <- <-].
    + apply String.eqb_neq in Hb. unfold bind at 1.
      destruct (record_transaction_staf waktu b (nama r) (menu m) (harga m) "SUKSES" st1)
        as [Hs|(_ & r' & Hr' & Hs)]; unfold after in Hs;
        destruct (record_transaction waktu b (nama r) (menu m) (harga m) "SUKSES" st1)
          as [[x|e] s2]; simpl in Hs.
      * unfold bind.
        destruct (get_staf_data_db now (Some b) s2) as (v3 & st3 & -> & D3).
        intros E. left.
        assert (st' = st3) as -> by (by destruct v3 as [[|]|]; inversion E).
        by rewrite D3, Hs, D.
      * intros [= <- <-]. left. by rewrite Hs, D.
      * unfold bind.
        destruct (get_staf_data_db now (Some b) s2) as (v3 & st3 & -> & D3).
        intros E. right. split; [done|].
        assert (st' = st3) as -> by (by destruct v3 as [[|]|]; inversion E).
        rewrite D in Hr', Hs. rewrite Hr in Hr'. injection Hr' as <-.
        exists r. split; [done|]. by rewrite D3, Hs.
      * intros [= <- <-]. right. split; [done|].
        rewrite D in Hr', Hs. rewrite Hr in Hr'. injection Hr' as <-. by exists r.
  - intros E. left. apply Hgagal in E; [done|]. by intros x s2 res2 s3 [= <- <-].
Qed.

Lemma import_row_admin_penuh cols row acc acc' :
  admin_penuh (i_db acc) → import_row cols row acc = Ok acc' → admin_penuh (i_db acc').
Proof.
  intros Ha. unfold import_row.
  destruct (py_int _) as [jatah|[]]; [| |done..].
  - destruct (_ || (jatah <=? 0)); [by intros [= <-]|].
    destruct (sqlite_int_ok jatah); [|by intros [= <-]].
    intros [= <-] r. simpl.
    destruct (decide (strip (py_str (row_get cols row "barcode_id")) = ADMIN_BARCODE_ID))
      as [->|Hne].
    + rewrite lookup_insert_eq. by intros [= <-].
    + rewrite lookup_insert_ne by done. apply Ha.
  - by intros [= <-].
Qed.

Lemma import_rows_admin_penuh cols rows acc acc' :
  admin_penuh (i_db acc) → import_rows cols rows acc = Ok acc' → admin_penuh (i_db acc').
Proof.
  revert acc. induction rows as [|row rows IH]; intros acc Hq; simpl.
  - by intros [= <-].
  - destruct (import_row cols row acc) as [acc1|] eqn:E; [|done].
    apply IH. by eapply import_row_admin_penuh.
Qed.

Lemma step_admin_penuh r st :
  coherent st → admin_penuh (db st) → admin_penuh (db (step r st)).
Proof.
  intros Hc Ha. destruct r; simpl; unfold after.
  - unfold setup_database; simpl.
    destruct (tbl_staf (db st) !! ADMIN_BARCODE_ID) eqn:E;
      destruct (decide _); simpl; try done;
      intros r; simpl; rewrite lookup_insert_eq; by intros [= <-].
  - destruct (scan_page_staf now waktu submitted barcode_input st Hc)
      as [Hs|(Hne & r & Hr & Hs)]; unfold after in Hs; intros r'; rewrite Hs.
    + apply Ha.
    + rewrite lookup_insert_ne by done. apply Ha.
  - intros r. simpl. rewrite lookup_fmap.
    destruct (tbl_staf (db st) !! ADMIN_BARCODE_ID); [|done]. by intros [= <-].
  - unfold tambah_staf_form.
    destruct (_ || _); [done|]. destruct (negb _); [done|].
    destruct (tbl_staf (db st) !! new_barcode_id) eqn:E; [done|].
    intros r. simpl.
    destruct (decide (new_barcode_id = ADMIN_BARCODE_ID)) as [->|Hne].
    + rewrite lookup_insert_eq. by intros [= <-].
    + rewrite lookup_insert_ne by done. apply Ha.
  - unfold edit_staf_form. destruct (negb _); [done|].
    intros r. simpl.
    destruct (tbl_staf (db st) !! barcode_to_edit) eqn:E; [|apply Ha].
    destruct (decide (barcode_to_edit = ADMIN_BARCODE_ID)) as [->|Hne].
    + rewrite lookup_insert_eq. by intros [= <-].
    + rewrite lookup_insert_ne by done. apply Ha.
  - intros r. simpl.
    destruct (decide (barcode_to_edit = ADMIN_BARCODE_ID)) as [->|Hne].
    + by rewrite lookup_delete_eq.
    + rewrite lookup_delete_ne by done. apply Ha.
  - unfold import_staf_from_csv.
    destruct (columns_present df_import); [|done].
    destruct (import_rows _ _ _) as [acc|] eqn:E; [|done].
    simpl. by apply (import_rows_admin_penuh _ _ (mkAcc (db st) 0 0) acc Ha E).
  - unfold form_tambah_dept. destruct (negb _); [done|]. by destruct (decide _).
  - unfold form_menu_harian. by destruct (_ || _).
  - by apply (get_transactions_by_date_preserves_db admin_penuh).
  - by apply (get_staf_data_preserves_db admin_penuh).
  - by apply (get_departemen_data_preserves_db admin_penuh).
  - by apply (get_menu_today_preserves_db admin_penuh).
Qed.

(** In a session that starts from a consistent state where the admin
    row has its full quota, it keeps it. *)
Lemma run_admin_penuh rs st :
  forallb widget_ok rs = true → ReqSetup ∉ rs →
  consistent st → admin_penuh (db st) → admin_penuh (db (run rs st)).
Proof.
  revert st. induction rs as [|r rs IH]; intros st Hw Hn Hst Ha; simpl; [done|].
  simpl in Hw. apply andb_true_iff in Hw as [Hr Hrs].
  apply not_elem_of_cons in Hn as [Hne Hn].
  apply IH; [done..| |].
  - by apply step_consistent.
  - apply step_admin_penuh; [apply Hst | done].
Qed.

Lemma admin_penuh_initial : admin_penuh (db initial_state).
Proof. intros r. vm_compute. by intros [= <-]. Qed.

(** ** The report *)

Lemma elem_of_insert_by {A} (le : A → A → bool) (x a : A) (l : list A) :
  x ∈ insert_by le a l ↔ x = a ∨ x ∈ l.
Proof.
  induction l as [|y l IH]; simpl.
  - rewrite list_elem_of_singleton, elem_of_nil. tauto.
  - destruct (le a y).
    + by rewrite elem_of_cons.
    + rewrite !elem_of_cons, IH. tauto.
Qed.

Lemma elem_of_sort_by {A} (le : A → A → bool) (x : A) (l : list A) :
  x ∈ sort_by le l ↔ x ∈ l.
Proof.
  unfold sort_by. induction l as [|y l IH]; simpl; [done|].
  by rewrite elem_of_insert_by, elem_of_cons, IH.
Qed.

(** The rows of the report are the transactions that have a staff row
    with their barcode and pass the WHERE clause. *)
Lemma elem_of_select_transactions f t dp s d row :
  row ∈ select_transactions f t dp s d
  ↔ ∃ tr r,
      tr ∈ tbl_transaksi d
      ∧ tbl_staf d !! t_barcode_id tr = Some r
      ∧ laporan_where f t dp s (laporan_of tr r) = true
      ∧ row = laporan_of tr r.
Proof.
  unfold select_transactions.
  rewrite elem_of_sort_by, list_elem_of_In, filter_In, in_flat_map.
  split.
  - intros [(tr & Htr & Hin) Hw]. unfold join_staf in Hin.
    destruct (tbl_staf d !! t_barcode_id tr) as [r|] eqn:Hr; [|done].
    destruct Hin as [<-|[]]. exists tr, r. by rewrite list_elem_of_In.
  - intros (tr & r & Htr & Hr & Hw & ->). split; [|done].
    exists tr. rewrite <- list_elem_of_In. split; [done|].
    unfold join_staf. rewrite Hr. by left.
Qed.


(** ** CSV import: what a row does *)

Lemma py_int_not_type_error c : py_int c ≠ Raise TypeError.
Proof. destruct c; simpl; try done. by destruct (int_of_str s). Qed.

(** A row whose quota does not parse, or parses to a value that is not
    positive, or that has a blank text field, is counted as one failure
    and writes nothing, provided that [int] raises nothing but
    [ValueError]. *)
Lemma import_row_rejected cols row acc :
  let barcode := strip (py_str (row_get cols row "barcode_id")) in
  let nama_ := strip (py_str (row_get cols row "nama")) in
  let dept := strip (py_str (row_get cols row "departemen")) in
  py_int (row_get cols row "jatah_harian") ≠ Raise OverflowError →
  (∀ jatah, py_int (row_get cols row "jatah_harian") = Ok jatah →
            barcode = "" ∨ nama_ = "" ∨ dept = "" ∨ jatah ≤ 0) →
  import_row cols row acc
  = Ok (mkAcc (i_db acc) (success_count acc) (fail_count acc + 1)).
Proof.
  intros barcode nama_ dept Hno Hbad. unfold import_row.
  destruct (py_int (row_get cols row "jatah_harian")) as [jatah|e] eqn:E.
  - fold barcode nama_ dept.
    destruct (Hbad jatah eq_refl) as [->|[->|[->|Hj]]]; simpl;
      rewrite ?orb_true_r; try done.
    apply Z.leb_le in Hj. by rewrite Hj, !orb_true_r.
  - destruct e; try done. by destruct (py_int_not_type_error _ E).
Qed.

(** A row is counted as a success only if its quota parses to a
    positive integer and its three text fields are not blank. *)
Lemma import_row_accepted cols row acc acc' :
  import_row cols row acc = Ok acc' →
  success_count acc' = success_count acc + 1 →
  ∃ jatah,
    py_int (row_get cols row "jatah_harian") = Ok jatah
    ∧ 0 < jatah
    ∧ strip (py_str (row_get cols row "barcode_id")) ≠ ""
    ∧ strip (py_str (row_get cols row "nama")) ≠ ""
    ∧ strip (py_str (row_get cols row "departemen")) ≠ ""
    ∧ tbl_staf (i_db acc') !! strip (py_str (row_get cols row "barcode_id"))
      = Some (StafRow (strip (py_str (row_get cols row "nama")))
                (strip (py_str (row_get cols row "departemen"))) jatah jatah).
Proof.
  unfold import_row.
  destruct (py_int (row_get cols row "jatah_harian")) as [jatah|[]]; [| |done..].
  - destruct (strip (py_str (row_get cols row "barcode_id"))) as [|a1 s1] eqn:E1;
      simpl; [intros [= <-]; simpl; lia|].
    destruct (strip (py_str (row_get cols row "nama"))) as [|a2 s2] eqn:E2;
      simpl; [intros [= <-]; simpl; lia|].
    destruct (strip (py_str (row_get cols row "departemen"))) as [|a3 s3] eqn:E3;
      simpl; [intros [= <-]; simpl; lia|].
    destruct (jatah <=? 0) eqn:Hj; [intros [= <-]; simpl; lia|].
    destruct (sqlite_int_ok jatah); [|intros [= <-]; simpl; lia].
    intros [= <-] _. exists jatah. simpl. rewrite lookup_insert_eq.
    apply Z.leb_gt in Hj. by repeat split.
  - intros [= <-]. simpl. lia.
Qed.

(** C9.  The import of a file whose second row has the quota [inf]:
    [int] raises [OverflowError], which the handler for [ValueError]
    does not catch; the function is left without counts and without a
    commit, so that the valid first row is not written either.  With an
    empty field in place of [inf] the row is skipped and counted. *)
Theorem import_inf_quota_aborts (st : State) :
  import_staf_from_csv df_inf st = (Raise OverflowError, st)
  ∧ (import_staf_from_csv df_nan st).1 = Ok (1, 1).
Proof. split; reflexivity. Qed.

(** ** Further properties: setup, sessions and the log *)

Lemma read_coherent now q st :
  coherent st → (read now q st).1 = Ok (query_db q (db st)).
Proof.
  intros Hc. destruct q; simpl; unfold bind.
  - by destruct (get_transactions_by_date_coherent now from_date to_date departemen_
                   status_scan st Hc) as (st' & -> & _).
  - by destruct (get_staf_data_coherent now barcode_id st Hc) as (st' & -> & _).
  - by destruct (get_departemen_data_coherent now st Hc) as (st' & -> & _).
  - by destruct (get_menu_today_coherent now date_str st Hc) as (st' & -> & _).
Qed.

(** X1.  [setup_database] seeds the admin row and the admin
    department, keeps every row and department that is there, and
    changes nothing when it runs again. *)
Theorem setup_database_idempotent (st : State) :
  setup_database (after setup_database st) = (Ok tt, after setup_database st)
  ∧ is_Some (tbl_staf (db (after setup_database st)) !! ADMIN_BARCODE_ID)
  ∧ ADMIN_DEPARTEMEN_NAME ∈ tbl_departemen (db (after setup_database st))
  ∧ (∀ b r, tbl_staf (db st) !! b = Some r →
            tbl_staf (db (after setup_database st)) !! b = Some r)
  ∧ tbl_departemen (db st) ⊆ tbl_departemen (db (after setup_database st))
  ∧ tbl_transaksi (db (after setup_database st)) = tbl_transaksi (db st)
  ∧ tbl_menu_harian (db (after setup_database st)) = tbl_menu_harian (db st).
Proof.
  assert (is_Some (tbl_staf (db (after setup_database st)) !! ADMIN_BARCODE_ID)
          ∧ ADMIN_DEPARTEMEN_NAME ∈ tbl_departemen (db (after setup_database st)))
    as [H1 H2].
  { unfold after, setup_database; simpl.
    destruct (tbl_staf (db st) !! ADMIN_BARCODE_ID) as [r|] eqn:E;
      destruct (decide _) as [Hd|Hd]; simpl; rewrite ?lookup_insert_eq, ?E;
      (split; [by eexists | set_solver]). }
  split; [by apply setup_database_seeded|]. split; [done|]. split; [done|].
  unfold after, setup_database; simpl.
  destruct (tbl_staf (db st) !! ADMIN_BARCODE_ID) as [r|] eqn:E;
    destruct (decide _) as [Hd|Hd]; simpl; repeat split; try done; try set_solver;
    intros b r' Hb; (rewrite lookup_insert_ne; [done | congruence]).
Qed.

(** X2.  [setup_database] commits without clearing the cache: an
    entry of [get_staf_data] that is within its time to live is still
    served after it, whatever the database now holds. *)
Theorem setup_database_keeps_cache (st : State) (now : Z) (k : option string)
    (e : entry staf_result) :
  c_staf (cache st) !! k = Some e →
  now < created e + 600 →
  cache (after setup_database st) = cache st
  ∧ (get_staf_data now k (after setup_database st)).1 = Ok (cached e).
Proof.
  intros He Hnow. split; [done|].
  unfold get_staf_data, cache_call, after, setup_database; simpl. rewrite He.
  by destruct (now <? created e + 600) eqn:Hl; [|lia].
Qed.

(** X3.  In a session that starts from the initial state, every cached
    reader returns, at any time, what the database holds: no write of
    the session is masked by the cache. *)
Theorem session_reads_are_current (rs : list request) (now : Z) (q : query) :
  forallb widget_ok rs = true →
  ReqSetup ∉ rs →
  (read now q (run rs initial_state)).1
  = Ok (query_db q (db (run rs initial_state))).
Proof.
  intros Hw Hn. apply read_coherent.
  by apply (run_consistent rs initial_state Hw Hn consistent_initial).
Qed.

(** X4.  A page run in which the form is not submitted, or is
    submitted with an empty barcode, writes nothing, whatever the cache
    holds. *)
Theorem scan_page_nothing_submitted (now : Z) (waktu : string) (submitted : bool)
    (barcode_input : string) (st : State) :
  submitted = false ∨ barcode_input = "" →
  db (after (scan_page now waktu submitted barcode_input) st) = db st
  ∧ ((scan_page now waktu submitted barcode_input st).1 = Ok MenuBelumDiatur
     ∨ (scan_page now waktu submitted barcode_input st).1 = Ok TidakAdaScan).
Proof.
  intros Hs.
  assert (submitted && truthy barcode_input = false) as Hf.
  { destruct Hs as [->| ->]; [done | by rewrite andb_false_r]. }
  unfold after, scan_page, bind.
  destruct (get_menu_today_db now TODAY_DATE st) as (v & st' & -> & D).
  destruct v as [m|]; [rewrite Hf|]; simpl; split; auto.
Qed.

Lemma import_rows_tables cols rows acc acc' :
  import_rows cols rows acc = Ok acc' →
  tbl_transaksi (i_db acc') = tbl_transaksi (i_db acc)
  ∧ tbl_menu_harian (i_db acc') = tbl_menu_harian (i_db acc)
  ∧ tbl_departemen (i_db acc) ⊆ tbl_departemen (i_db acc').
Proof.
  revert acc. induction rows as [|row rows IH]; intros acc; simpl.
  - by intros [= <-].
  - destruct (import_row cols row acc) as [acc1|] eqn:E; [|done].
    intros E2. apply IH in E2 as (H1 & H2 & H3). revert E. unfold import_row.
    destruct (py_int _) as [jatah|[]]; [| |done..].
    + destruct (_ || (jatah <=? 0)); [by intros [= <-]|].
      destruct (sqlite_int_ok jatah); [|by intros [= <-]].
      intros E; injection E as <-. simpl in *. repeat split; [done..|].
      etrans; [apply union_subseteq_r | exact H3].
    + by intros [= <-].
Qed.

Lemma next_id_above l t : t ∈ l → t_id t < next_id l.
Proof.
  unfold next_id. induction l as [|y l IH].
  - by intros ?%elem_of_nil.
  - rewrite fmap_cons. cbn [foldr].
    intros [->|Hin]%elem_of_cons; [lia|]. specialize (IH Hin). lia.
Qed.

Lemma step_transaksi r st :
  tbl_transaksi (db (step r st)) = tbl_transaksi (db st)
  ∨ ∃ t, tbl_transaksi (db (step r st)) = tbl_transaksi (db st) ++ [t]
         ∧ t_id t = next_id (tbl_transaksi (db st)).
Proof.
  destruct r; simpl; unfold after.
  - left. unfold setup_database; simpl.
    by destruct (tbl_staf (db st) !! ADMIN_BARCODE_ID); destruct (decide _).
  - set (P := λ s : State,
        tbl_transaksi (db s) = tbl_transaksi (db st)
        ∨ ∃ t, tbl_transaksi (db s) = tbl_transaksi (db st) ++ [t]
               ∧ t_id t = next_id (tbl_transaksi (db st))).
    destruct (scan_page now waktu submitted barcode_input st) as [res st'] eqn:E.
    simpl. revert E. unfold scan_page, bind at 1.
    destruct (get_menu_today_db now TODAY_DATE st) as (v0 & st0 & -> & D0).
    destruct v0 as [m|]; [|intros [= <- <-]; left; by rewrite D0].
    destruct (submitted && truthy barcode_input);
      [|intros [= <- <-]; left; by rewrite D0].
    unfold bind at 1.
    destruct (get_staf_data_db now (Some barcode_input) st0) as (v1 & st1 & -> & D1).
    assert (db st1 = db st) as D by congruence.
    assert (∀ n s (k : bool → M scan_result),
              (∀ x s2 res2 s3, k x s2 = (res2, s3) → db s3 = db s2) →
              bind (record_transaction waktu barcode_input n (menu m) (harga m) s) k st1
              = (res, st') → P st') as Hrec.
    { intros n s k Hk. unfold bind, record_transaction.
      destruct (sqlite_int_ok (harga m)).
      - intros Hk'%Hk. unfold P. rewrite Hk'. right. simpl.
        destruct (String.eqb s "SUKSES"); simpl; rewrite D;
          (eexists; split; [reflexivity|done]).
      - intros [= <- <-]. left. by rewrite D. }
    destruct v1 as [[sd|]|]; [| |intros [= <- <-]; left; by rewrite D].
    + destruct (String.eqb (d_barcode_id sd) ADMIN_BARCODE_ID);
        [|destruct (d_jatah_tersisa sd <=? 0)]; intros E; apply Hrec in E; try done.
      * by intros x s2 res2 s3 [= <- <-].
      * by intros x s2 res2 s3 [= <- <-].
      * intros x s2 res2 s3. unfold bind.
        destruct (get_staf_data_db now (Some barcode_input) s2) as (v3 & st3 & -> & D3).
        destruct v3 as [[|]|]; by intros [= <- <-].
    + intros E. apply Hrec in E; [done|]. by intros x s2 res2 s3 [= <- <-].
  - by left.
  - left. unfold tambah_staf_form.
    destruct (_ || _); [done|]. destruct (negb _); [done|].
    by destruct (tbl_staf (db st) !! new_barcode_id).
  - left. unfold edit_staf_form. by destruct (negb _).
  - by left.
  - left. unfold import_staf_from_csv.
    destruct (columns_present df_import); [|done].
    destruct (import_rows _ _ _) as [acc|] eqn:E; [|done].
    simpl. by destruct (import_rows_tables _ _ _ _ E) as (-> & _).
  - left. unfold form_tambah_dept. destruct (negb _); [done|]. by destruct (decide _).
  - left. unfold form_menu_harian. by destruct (_ || _).
  - left. by apply (get_transactions_by_date_preserves_db
                      (λ d, tbl_transaksi d = tbl_transaksi (db st))).
  - left. by apply (get_staf_data_preserves_db
                      (λ d, tbl_transaksi d = tbl_transaksi (db st))).
  - left. by apply (get_departemen_data_preserves_db
                      (λ d, tbl_transaksi d = tbl_transaksi (db st))).
  - left. by apply (get_menu_today_preserves_db
                      (λ d, tbl_transaksi d = tbl_transaksi (db st))).
Qed.

(** X5.  The transaction table is an append-only log: whatever the
    requests of a session, the rows that were there stay, in place and
    unchanged, and a request adds at most one row. *)
Theorem transaksi_append_only (rs : list request) (st : State) :
  tbl_transaksi (db st) `prefix_of` tbl_transaksi (db (run rs st))
  ∧ (length (tbl_transaksi (db (run rs st)))
     ≤ length (tbl_transaksi (db st)) + length rs)%nat.
Proof.
  revert st. induction rs as [|r rs IH]; intros st; simpl; [split; [done|lia]|].
  destruct (IH (step r st)) as [Hp Hl].
  destruct (step_transaksi r st) as [E|(t & E & _)]; rewrite E in Hp, Hl.
  - split; [done|lia].
  - split; [by eapply prefix_app_l|]. rewrite length_app in Hl. simpl in Hl. lia.
Qed.

(** X6.  The ids of the transaction table increase strictly along the
    log, and so are unique, in every state that a session reaches from
    a log with that property. *)
Theorem transaksi_ids_increase (rs : list request) (st : State) :
  StronglySorted (λ a b, t_id a < t_id b) (tbl_transaksi (db st)) →
  StronglySorted (λ a b, t_id a < t_id b) (tbl_transaksi (db (run rs st)))
  ∧ NoDup (t_id <$> tbl_transaksi (db (run rs st))).
Proof.
  intros Hs.
  assert (StronglySorted (λ a b, t_id a < t_id b)
            (tbl_transaksi (db (run rs st)))) as H.
  { revert st Hs. induction rs as [|r rs IH]; intros st Hs; simpl; [done|].
    apply IH. destruct (step_transaksi r st) as [->|(t & -> & Ht)]; [done|].
    apply StronglySorted_app. split; [|split; [done | repeat constructor]].
    intros x1 x2 H1 ->%list_elem_of_singleton. rewrite Ht. by apply next_id_above. }
  split; [done|].
  induction H as [|a l Hl IH Hall]; simpl; constructor; [|done].
  intros (b & Hb & Hin)%list_elem_of_fmap.
  rewrite Forall_forall in Hall. specialize (Hall b Hin). lia.
Qed.

(** ** Further properties: departments, staff forms and the menu *)

Lemma step_departemen r st (D : gset string) :
  D ⊆ tbl_departemen (db st) → D ⊆ tbl_departemen (db (step r st)).
Proof.
  intros HD. destruct r; simpl; unfold after.
  - unfold setup_database; simpl.
    destruct (tbl_staf (db st) !! ADMIN_BARCODE_ID); destruct (decide _); simpl;
      try done; by apply union_subseteq_r'.
  - apply (scan_page_preserves (λ s, D ⊆ tbl_departemen (db s))); [| |  |done].
    + intros. apply (get_menu_today_preserves_db (λ d, D ⊆ tbl_departemen d)).
    + intros. apply (get_staf_data_preserves_db (λ d, D ⊆ tbl_departemen d)).
    + intros n mn h s s0 H0. unfold after, record_transaction.
      destruct (sqlite_int_ok h); [|done]. simpl.
      by destruct (String.eqb s "SUKSES").
  - done.
  - unfold tambah_staf_form.
    destruct (_ || _); [done|]. destruct (negb _); [done|].
    by destruct (tbl_staf (db st) !! new_barcode_id).
  - unfold edit_staf_form. by destruct (negb _).
  - done.
  - unfold import_staf_from_csv.
    destruct (columns_present df_import); [|done].
    destruct (import_rows _ _ _) as [acc|] eqn:E; [|done].
    simpl. destruct (import_rows_tables _ _ _ _ E) as (_ & _ & H).
    by etrans; [|exact H].
  - unfold form_tambah_dept. destruct (negb _); [done|].
    destruct (decide _); [done|]. simpl. by apply union_subseteq_r'.
  - unfold form_menu_harian. by destruct (_ || _).
  - by apply (get_transactions_by_date_preserves_db (λ d, D ⊆ tbl_departemen d)).
  - by apply (get_staf_data_preserves_db (λ d, D ⊆ tbl_departemen d)).
  - by apply (get_departemen_data_preserves_db (λ d, D ⊆ tbl_departemen d)).
  - by apply (get_menu_today_preserves_db (λ d, D ⊆ tbl_departemen d)).
Qed.

(** X7.  No request removes a department: the departments of a state
    are still there after any session, and the admin department is
    there in every state reached from the initial one. *)
Theorem departemen_never_removed (rs : list request) (st : State) :
  tbl_departemen (db st) ⊆ tbl_departemen (db (run rs st))
  ∧ ADMIN_DEPARTEMEN_NAME ∈ tbl_departemen (db (run rs initial_state)).
Proof.
  assert (∀ s (D : gset string),
            D ⊆ tbl_departemen (db s) → D ⊆ tbl_departemen (db (run rs s))) as H.
  { induction rs as [|r rs IH]; intros s D HD; simpl; [done|].
    apply IH. by apply step_departemen. }
  split; [by apply H|].
  apply (H initial_state {[ADMIN_DEPARTEMEN_NAME]}); [|set_solver].
  vm_compute. set_solver.
Qed.

(** X8.  The add form does not overwrite: for a barcode that is
    registered it reports no success and leaves database and cache as
    they are, whatever the other fields. *)
Theorem tambah_staf_form_registered (b n d : string) (j : Z) (r : staf_row)
    (st : State) :
  tbl_staf (db st) !! b = Some r →
  ∃ res, tambah_staf_form b n d j st = (Ok res, st) ∧ res ≠ Berhasil.
Proof.
  intros Hr. unfold tambah_staf_form.
  destruct (_ || _); [by eexists|]. destruct (negb _); [by eexists|].
  rewrite Hr. by eexists.
Qed.

(** X9.  A staff member added through the form, with a barcode that is
    free, can be read back at once and at any time: [get_staf_data]
    returns the fields entered, with the full quota; the other rows are
    as before. *)
Theorem tambah_staf_form_then_read (b n d : string) (j now : Z) (st : State) :
  tbl_staf (db st) !! b = None →
  b ≠ "" → n ≠ "" →
  number_input_ok 1 j = true →
  ∃ st',
    tambah_staf_form b n d j st = (Ok Berhasil, st')
    ∧ (get_staf_data now (Some b) st').1 = Ok (RDict (Some (StafDict b n d j j)))
    ∧ (∀ b', b' ≠ b → tbl_staf (db st') !! b' = tbl_staf (db st) !! b').
Proof.
  intros Hr Hb Hn Hj. unfold tambah_staf_form.
  assert (truthy b = true) as Ht by (by destruct b).
  assert (truthy n = true) as -> by (by destruct n).
  rewrite Ht, (number_input_sqlite 1 j) by (done || lia). simpl. rewrite Hr.
  eexists. split; [done|]. split.
  - unfold commit, clear_all_caches. simpl.
    rewrite get_staf_data_empty, select_staf_truthy by done. simpl.
    by rewrite lookup_insert_eq.
  - intros b' Hne. simpl. by rewrite lookup_insert_ne.
Qed.


(** X11.  The menu saved for a date is the menu read for that date, at
    any time and whatever was cached; a later save for the same date
    replaces it; the menus of other dates are as before. *)
Theorem save_menu_today_then_read (ds : string) (m1 m2 : menu_dict) (now : Z)
    (st : State) :
  (get_menu_today now ds (after (save_menu_today ds m1) st)).1 = Ok (Some m1)
  ∧ (get_menu_today now ds
       (after (save_menu_today ds m2) (after (save_menu_today ds m1) st))).1
    = Ok (Some m2)
  ∧ (∀ ds', ds' ≠ ds →
       (get_menu_today now ds' (after (save_menu_today ds m1) st)).1
       = Ok (tbl_menu_harian (db st) !! ds')).
Proof.
  unfold after, save_menu_today, commit, clear_all_caches,
    get_menu_today, cache_call, select_menu; simpl.
  rewrite !lookup_empty. simpl. rewrite !lookup_insert_eq.
  repeat split. intros ds' Hne. rewrite lookup_empty. simpl.
  by rewrite lookup_insert_ne.
Qed.

(** ** Further properties: the CSV import *)

Lemma write_rows_tables ws d :
  write_rows ws d
  = mkDB (list_to_set ((λ w, departemen w.2) <$> ws) ∪ tbl_departemen d)
         (tbl_menu_harian d)
         (list_to_map (reverse ws) ∪ tbl_staf d)
         (tbl_transaksi d).
Proof.
  revert d. induction ws as [|[k v] ws IH]; intros d.
  - simpl. rewrite (left_id_L ∅ (∪)), (left_id_L ∅ (∪)). by destruct d.
  - change (write_rows ((k, v) :: ws) d) with (write_rows ws (write_row (k, v) d)).
    rewrite IH. simpl. f_equal.
    + by rewrite (assoc_L (∪)), (comm_L (∪) _ {[departemen v]}).
    + rewrite reverse_cons, list_to_map_app. simpl.
      rewrite <- (assoc_L (∪)). f_equal.
      by rewrite insert_union_singleton_l, insert_empty.
Qed.

Lemma write_rows_twice ws d : write_rows ws (write_rows ws d) = write_rows ws d.
Proof.
  rewrite !write_rows_tables. simpl. f_equal.
  - by rewrite (assoc_L (∪)), (idemp_L (∪)).
  - by rewrite (assoc_L (∪)), (idemp_L (∪)).
Qed.

(** What a turn of the loop does depends on the row alone. *)
Lemma import_row_effect cols row :
  (∃ e, ∀ acc, import_row cols row acc = Raise e)
  ∨ (∀ acc, import_row cols row acc = Ok (row_failed acc))
  ∨ (∃ w, row_valid w
          ∧ ∀ acc, import_row cols row acc
                   = Ok (mkAcc (write_row w (i_db acc)) (success_count acc + 1)
                           (fail_count acc))).
Proof.
  unfold import_row.
  destruct (py_int (row_get cols row "jatah_harian")) as [jatah|e].
  - destruct (strip (py_str (row_get cols row "barcode_id"))) as [|a1 s1] eqn:E1;
      simpl; [by right; left|].
    destruct (strip (py_str (row_get cols row "nama"))) as [|a2 s2] eqn:E2;
      simpl; [by right; left|].
    destruct (strip (py_str (row_get cols row "departemen"))) as [|a3 s3] eqn:E3;
      simpl; [by right; left|].
    destruct (jatah <=? 0) eqn:Hj; [by right; left|].
    destruct (sqlite_int_ok jatah); [|by right; left].
    right; right.
    exists (String a1 s1, StafRow (String a2 s2) (String a3 s3) jatah jatah).
    apply Z.leb_gt in Hj. split; [by repeat split|done].
  - destruct e; [by right; left | left; by eexists..].
Qed.

Lemma import_rows_effect cols rows :
  (∃ e, ∀ acc, import_rows cols rows acc = Raise e)
  ∨ (∃ ws k,
       Forall row_valid ws
       ∧ (length ws + k = length rows)%nat
       ∧ ∀ acc, import_rows cols rows acc
                = Ok (mkAcc (write_rows ws (i_db acc))
                        (success_count acc + Z.of_nat (length ws))
                        (fail_count acc + Z.of_nat k))).
Proof.
  induction rows as [|row rows IH]; simpl.
  - right. exists [], 0%nat. split; [done|]. split; [done|].
    intros [d s f]. simpl. by rewrite !Z.add_0_r.
  - destruct (import_row_effect cols row) as [[e He]|[Hf|(w & Hv & Hw)]].
    + left. exists e. intros acc. by rewrite He.
    + destruct IH as [[e He]|(ws & k & Hvs & Hl & Hws)].
      * left. exists e. intros acc. by rewrite Hf, He.
      * right. exists ws, (S k). split; [done|]. split; [lia|].
        intros acc. rewrite Hf, Hws. simpl. do 2 f_equal. lia.
    + destruct IH as [[e He]|(ws & k & Hvs & Hl & Hws)].
      * left. exists e. intros acc. by rewrite Hw, He.
      * right. exists (w :: ws), k. split; [by constructor|].
        split; [simpl; lia|].
        intros acc. rewrite Hw, Hws. simpl. do 2 f_equal. lia.
Qed.

(** X12.  An import whose table lacks one of the four required columns
    returns [(0, 0)] and touches neither database nor cache, whatever
    its rows. *)
Theorem import_missing_column (df_import : DataFrame) (col : string) (st : State) :
  col ∈ required_cols →
  col ∉ columns df_import →
  import_staf_from_csv df_import st = (Ok (0, 0), st).
Proof.
  intros Hreq Hcol. unfold import_staf_from_csv.
  destruct (columns_present df_import) eqn:E; [|done]. exfalso.
  unfold columns_present in E. rewrite forallb_forall in E.
  apply list_elem_of_In in Hreq. apply E in Hreq.
  by apply bool_decide_eq_true in Hreq.
Qed.

(** X13.  An import that returns has counted every row once: with the
    required columns present, the two counts are non-negative and add
    up to the number of rows. *)
Theorem import_counts_every_row (df_import : DataFrame) (st st' : State)
    (sukses gagal : Z) :
  columns_present df_import = true →
  import_staf_from_csv df_import st = (Ok (sukses, gagal), st') →
  sukses + gagal = Z.of_nat (length (records df_import))
  ∧ 0 ≤ sukses ∧ 0 ≤ gagal.
Proof.
  intros Hc. unfold import_staf_from_csv. rewrite Hc.
  destruct (import_rows_effect (columns df_import) (records df_import))
    as [[e He]|(ws & k & _ & Hl & Hws)].
  - by rewrite He.
  - rewrite Hws. simpl. intros [= <- <- _]. lia.
Qed.

(** X14.  The import is idempotent: importing the same table again
    gives the same counts and leaves the database as the first import
    left it. *)
Theorem import_twice (df_import : DataFrame) (st st1 : State) (counts : Z * Z) :
  import_staf_from_csv df_import st = (Ok counts, st1) →
  ∃ st2,
    import_staf_from_csv df_import st1 = (Ok counts, st2)
    ∧ db st2 = db st1.
Proof.
  unfold import_staf_from_csv.
  destruct (columns_present df_import); [|intros [= <- <-]; by eexists].
  destruct (import_rows_effect (columns df_import) (records df_import))
    as [[e He]|(ws & k & _ & _ & Hws)].
  - by rewrite He.
  - rewrite !Hws. simpl. intros [= <- <-]. eexists. split; [done|]. simpl.
    apply write_rows_twice.
Qed.

(** X15.  After an import every staff row is either as it was before
    or was written by the import, and then it has a non-empty barcode
    and name, a positive quota that is fully available, and a
    department that is in the department table. *)
Theorem import_rows_written (df_import : DataFrame) (st st' : State)
    (counts : Z * Z) (b : string) (r : staf_row) :
  import_staf_from_csv df_import st = (Ok counts, st') →
  tbl_staf (db st') !! b = Some r →
  tbl_staf (db st) !! b = Some r
  ∨ (b ≠ "" ∧ nama r ≠ "" ∧ 0 < jatah_harian r
     ∧ jatah_tersisa r = jatah_harian r
     ∧ departemen r ∈ tbl_departemen (db st')).
Proof.
  unfold import_staf_from_csv.
  destruct (columns_present df_import); [|intros [= _ <-]; by left].
  destruct (import_rows_effect (columns df_import) (records df_import))
    as [[e He]|(ws & k & Hvs & _ & Hws)].
  - by rewrite He.
  - rewrite Hws. simpl. intros [= _ <-]. simpl. rewrite write_rows_tables. simpl.
    intros [Hin|[_ Hold]]%lookup_union_Some_raw; [right | by left].
    apply elem_of_list_to_map_2 in Hin. rewrite elem_of_reverse in Hin.
    rewrite Forall_forall in Hvs. destruct (Hvs _ Hin) as (H1 & H2 & _ & H4 & H5).
    simpl in *. repeat split; try done.
    apply elem_of_union_l, elem_of_list_to_set, list_elem_of_fmap.
    by exists (b, r).
Qed.

(** ** Further properties: order and filters of the report *)

Lemma insert_by_perm {A} (le : A → A → bool) (x : A) (l : list A) :
  insert_by le x l ≡ₚ x :: l.
Proof.
  induction l as [|y l IH]; simpl; [done|].
  destruct (le x y); [done|]. rewrite IH. apply Permutation_swap.
Qed.

Lemma sort_by_perm {A} (le : A → A → bool) (l : list A) : sort_by le l ≡ₚ l.
Proof.
  unfold sort_by. induction l as [|y l IH]; simpl; [done|].
  by rewrite insert_by_perm, IH.
Qed.

Lemma insert_by_sorted {A} (le : A → A → bool) (x : A) (l : list A) :
  (∀ a b, le a b = true ∨ le b a = true) →
  Sorted (λ a b, le a b = true) l →
  Sorted (λ a b, le a b = true) (insert_by le x l).
Proof.
  intros Htot. induction l as [|y l IH]; intros Hs; simpl.
  - by repeat constructor.
  - destruct (le x y) eqn:Hxy; [constructor; [done | by constructor]|].
    apply Sorted_inv in Hs as [Hs Hhd]. constructor; [by apply IH|].
    destruct l as [|z l]; simpl.
    + constructor. by destruct (Htot x y) as [H|H]; [congruence|].
    + apply HdRel_inv in Hhd. destruct (le x z); constructor; [|done].
      by destruct (Htot x y) as [H|H]; [congruence|].
Qed.

Lemma sort_by_sorted {A} (le : A → A → bool) (l : list A) :
  (∀ a b, le a b = true ∨ le b a = true) →
  Sorted (λ a b, le a b = true) (sort_by le l).
Proof.
  intros Htot. unfold sort_by. induction l as [|y l IH]; simpl; [constructor|].
  by apply insert_by_sorted.
Qed.

Lemma laporan_desc_total a b : laporan_desc a b = true ∨ laporan_desc b a = true.
Proof.
  unfold laporan_desc, String.ltb.
  rewrite (String.compare_antisym (l_tanggal a) (l_tanggal b)).
  destruct (String.compare (l_tanggal b) (l_tanggal a)) eqn:C; simpl; [|by left|by right].
  apply String.compare_eq_iff in C. rewrite C, String.eqb_refl. simpl.
  destruct (String.leb_total (l_waktu b) (l_waktu a)) as [->| ->]; auto.
Qed.

(** X16.  The report comes in the order of its ORDER BY clause, later
    dates first and later times first within a date, and holds each
    joined row that passes the WHERE clause as often as the join does. *)
Theorem laporan_sorted (f t dp s : option string) (d : DB) :
  Sorted (λ a b, laporan_desc a b = true) (select_transactions f t dp s d)
  ∧ select_transactions f t dp s d
    ≡ₚ List.filter (laporan_where f t dp s) (flat_map (join_staf d) (tbl_transaksi d)).
Proof.
  split; [apply sort_by_sorted, laporan_desc_total | apply sort_by_perm].
Qed.

(** X17.  The list of departments holds each department once, in
    ascending order. *)
Theorem departemen_sorted (d : DB) :
  Sorted (λ a b, String.leb a b = true) (select_departemen d)
  ∧ NoDup (select_departemen d)
  ∧ ∀ x, x ∈ select_departemen d ↔ x ∈ tbl_departemen d.
Proof.
  unfold select_departemen. split; [apply sort_by_sorted, String.leb_total|].
  split.
  - rewrite sort_by_perm. apply NoDup_elements.
  - intros x. by rewrite elem_of_sort_by, elem_of_elements.
Qed.

Lemma filter_ok_active sentinel v x :
  filter_ok (active_filter sentinel v) x = true
  ↔ (v = None ∨ v = Some "" ∨ v = Some sentinel ∨ v = Some x).
Proof.
  destruct v as [s|]; [|simpl; by split; auto].
  unfold active_filter. destruct (truthy s) eqn:Ht.
  - destruct (String.eqb s sentinel) eqn:E; cbn [andb negb filter_ok].
    + apply String.eqb_eq in E. subst. by split; auto.
    + apply String.eqb_neq in E. rewrite String.eqb_eq. split.
      * intros ->. auto.
      * intros [?|[[= ->]|[?|?]]]; [done | done | congruence | congruence].
  - destruct s; [|done]. cbn. by split; auto.
Qed.

(** X18.  The filters of the report: a row is in the report filtered by
    department and status exactly if it is in the unfiltered report of
    the same dates and has that department and that status; the
    choices "all", the empty string and no choice filter nothing. *)
Theorem laporan_filters (f t dp s : option string) (d : DB) (row : laporan_row) :
  row ∈ select_transactions f t dp s d
  ↔ row ∈ select_transactions f t None None d
    ∧ (dp = None ∨ dp = Some "" ∨ dp = Some "SEMUA DEPARTEMEN"
       ∨ dp = Some (l_departemen row))
    ∧ (s = None ∨ s = Some "" ∨ s = Some "SEMUA STATUS"
       ∨ s = Some (l_status_scan row)).
Proof.
  rewrite !elem_of_select_transactions.
  rewrite <- (filter_ok_active "SEMUA DEPARTEMEN" dp),
    <- (filter_ok_active "SEMUA STATUS" s).
  unfold laporan_where. split.
  - intros (tr & r & Htr & Hr & Hw & ->).
    apply andb_true_iff in Hw as [[H1 H2]%andb_true_iff H3].
    split; [|done]. exists tr, r.
    split; [done|]. split; [done|]. split; [|done]. by rewrite H1.
  - intros [(tr & r & Htr & Hr & Hw & ->) [H2 H3]].
    exists tr, r. cbn [active_filter filter_ok] in Hw. rewrite !andb_true_r in Hw.
    by rewrite Hw, H2, H3.
Qed.

(** X19.  The dates of the report: every row has its date between the
    two bounds, in the order of strings; the report is empty when a
    bound is missing and when the upper bound is below the lower. *)
Theorem laporan_dates (f t dp s : option string) (d : DB) :
  (∀ row, row ∈ select_transactions f t dp s d →
          ∃ a b, f = Some a ∧ t = Some b
                 ∧ String.leb a (l_tanggal row) = true
                 ∧ String.leb (l_tanggal row) b = true)
  ∧ (f = None ∨ t = None → select_transactions f t dp s d = [])
  ∧ (∀ a b, f = Some a → t = Some b → String.leb a b = false →
            select_transactions f t dp s d = []).
Proof.
  assert (∀ row, row ∈ select_transactions f t dp s d →
            ∃ a b, f = Some a ∧ t = Some b
                   ∧ String.leb a (l_tanggal row) = true
                   ∧ String.leb (l_tanggal row) b = true) as H.
  { intros row (tr & r & _ & _ & Hw & ->)%elem_of_select_transactions.
    unfold laporan_where, between in Hw.
    destruct f as [a|], t as [b|]; try done.
    apply andb_true_iff in Hw as [[[H1 H2]%andb_true_iff _]%andb_true_iff _].
    by exists a, b. }
  split; [done|]. split.
  - intros Hn. apply elem_of_nil_inv. intros row Hrow.
    destruct (H row Hrow) as (a & b & -> & -> & _). by destruct Hn.
  - intros a b -> -> Hab. apply elem_of_nil_inv. intros row Hrow.
    destruct (H row Hrow) as (a' & b' & [= <-] & [= <-] & H1 & H2).
    assert (String.le a b) as Hle.
    { etrans; apply Is_true_true; [exact H1 | exact H2]. }
    apply Is_true_true in Hle. congruence.
Qed.

(** ** Further properties: the totals of the report page *)

Lemma filter_split_length {A} (p : A → bool) (l : list A) :
  (length (List.filter p l) + length (List.filter (λ x, negb (p x)) l) = length l)%nat.
Proof. induction l as [|x l IH]; simpl; [done|]. destruct (p x); simpl; lia. Qed.

Lemma filter_none {A} (p : A → bool) (l : list A) :
  (∀ x, x ∈ l → p x = false) → List.filter p l = [].
Proof.
  induction l as [|x l IH]; intros H; simpl; [done|].
  rewrite (H x) by apply list_elem_of_here.
  apply IH. intros y Hy. apply H. by apply list_elem_of_further.
Qed.

Lemma select_transactions_status f t dp status d row :
  status ≠ "" → status ≠ "SEMUA STATUS" →
  row ∈ select_transactions f t dp (Some status) d → l_status_scan row = status.
Proof.
  intros H1 H2 (tr & r & _ & _ & Hw & ->)%elem_of_select_transactions.
  unfold laporan_where in Hw. apply andb_true_iff in Hw as [_ Hw].
  apply filter_ok_active in Hw as [?|[?|[?|?]]]; congruence.
Qed.

Lemma wrap64_small z : - 2 ^ 63 ≤ z < 2 ^ 63 → wrap64 z = z.
Proof. intros Hz. unfold wrap64. rewrite Z.mod_small; lia. Qed.

(** X20.  The report page on a coherent state: it writes nothing; it
    stops at the warning exactly when no row passes the filters;
    otherwise the two counts add up to the number of rows shown, no
    failed scan is counted under the status filter SUKSES, and under
    the filter GAGAL no success is counted and the total cost is zero;
    the total cost is the sum of the prices of the successful rows
    whenever that sum fits in 64 bits. *)
Theorem admin_laporan_scan_harian_totals (now : Z)
    (from_date_str to_date_str filter_dept filter_status : string) (st : State) :
  coherent st →
  let df := select_transactions (Some from_date_str) (Some to_date_str)
              (Some filter_dept) (Some filter_status) (db st) in
  ∃ st',
    admin_laporan_scan_harian now from_date_str to_date_str filter_dept
      filter_status st
    = (Ok (match df with
           | [] => BelumAdaData
           | _ :: _ => Ringkasan (total_sukses df) (total_gagal df) (total_biaya df) df
           end), st')
    ∧ db st' = db st
    ∧ (total_sukses df + total_gagal df = length df)%nat
    ∧ (filter_status = "SUKSES" → total_gagal df = 0%nat)
    ∧ (filter_status = "GAGAL" → total_sukses df = 0%nat ∧ total_biaya df = 0)
    ∧ (- 2 ^ 63 ≤ foldr Z.add 0 (l_harga <$> List.filter is_sukses df) < 2 ^ 63 →
       total_biaya df = foldr Z.add 0 (l_harga <$> List.filter is_sukses df)).
Proof.
  intros Hc df.
  destruct (get_departemen_data_coherent now st Hc) as (st0 & E0 & D0 & C0).
  destruct (get_transactions_by_date_coherent now (Some from_date_str)
              (Some to_date_str) (Some filter_dept) (Some filter_status) st0 C0)
    as (st1 & E1 & D1 & _).
  exists st1. unfold admin_laporan_scan_harian, bind. rewrite E0, E1, D0. fold df.
  split; [by destruct df|]. split; [congruence|].
  split; [apply filter_split_length|]. split; [|split].
  - intros ->. unfold total_gagal. rewrite filter_none; [done|].
    intros row Hrow. apply select_transactions_status in Hrow; [|done..].
    unfold is_sukses. by rewrite Hrow.
  - intros ->.
    assert (List.filter is_sukses df = []) as Hn.
    { apply filter_none. intros row Hrow.
      apply select_transactions_status in Hrow; [|done..].
      unfold is_sukses. by rewrite Hrow. }
    unfold total_sukses, total_biaya. by rewrite Hn.
  - apply wrap64_small.
Qed.

(** ** Further properties: login *)

Lemma act_logged_in a s :
  (logged_in s = true → role s = "admin") →
  (logged_in (act a s) = true → role (act a s) = "admin")
  ∧ (logged_in (act a s) = true →
     logged_in s = true ∨ a = KirimLogin true ADMIN_BARCODE_ID).
Proof.
  intros Hs. destruct a; simpl.
  - by destruct (logged_in s) eqn:E; simpl; rewrite ?E; auto.
  - by destruct (logged_in s) eqn:E; simpl; rewrite ?E; auto.
  - by destruct (logged_in s) eqn:E; simpl; rewrite ?E; auto.
  - by destruct (route s); simpl; auto.
  - destruct (route s); simpl; auto. unfold authentication.
    destruct submitted; [|by auto].
    destruct (String.eqb barcode_input ADMIN_BARCODE_ID) eqn:E; [|by auto].
    apply String.eqb_eq in E. subst. simpl. auto.
Qed.

(** X21.  The admin pages are shown only after a login with the admin
    barcode: from a new session, a sequence of actions that contains no
    submission of the login form with that barcode never reaches the
    admin page, and [logged_in] is set only together with the role
    ["admin"]. *)
Theorem admin_page_needs_barcode (l : list action) :
  KirimLogin true ADMIN_BARCODE_ID ∉ l →
  route (acts l session_awal) ≠ PageAdmin
  ∧ logged_in (acts l session_awal) = false.
Proof.
  intros Hl.
  assert (∀ s, logged_in s = false → logged_in (acts l s) = false) as H.
  { induction l as [|a l IH]; intros s Hs; simpl; [done|].
    apply not_elem_of_cons in Hl as [Ha Hl]. apply IH; [done|].
    assert (logged_in s = true → role s = "admin") as Hinv by (by rewrite Hs).
    destruct (act_logged_in a s Hinv) as [_ H2].
    destruct (logged_in (act a s)) eqn:E; [|done].
    destruct (H2 eq_refl) as [?|?]; congruence. }
  assert (logged_in (acts l session_awal) = false) as Hf by (by apply H).
  split; [|done]. unfold route. rewrite Hf. simpl.
  by destruct (String.eqb (role (acts l session_awal)) "login").
Qed.

(** ** Further properties: a quota is good for that many meals *)

(** A scan of a registered barcode other than the admin's, on a
    consistent state with today's menu set. *)
Lemma scan_registered now waktu b r m st :
  consistent st →
  tbl_menu_harian (db st) !! TODAY_DATE = Some m →
  tbl_staf (db st) !! b = Some r →
  b ≠ ADMIN_BARCODE_ID →
  let st' := after (scan_page now waktu true b) st in
  tbl_menu_harian (db st') = tbl_menu_harian (db st)
  ∧ if 0 <? jatah_tersisa r
    then tbl_staf (db st') = <[b := decrement_row r]> (tbl_staf (db st))
         ∧ tbl_transaksi (db st')
           = tbl_transaksi (db st) ++ [scan_row st waktu b (nama r) m "SUKSES"]
    else tbl_staf (db st') = tbl_staf (db st)
         ∧ tbl_transaksi (db st')
           = tbl_transaksi (db st) ++ [scan_row st waktu b (nama r) m "GAGAL"].
Proof.
  intros Hst Hm Hr Hb st'. unfold st', after.
  assert (truthy b = true) as Ht by (by apply (proj1 (proj2 Hst) b r)).
  assert (sqlite_int_ok (harga m) = true) as Hh
    by (by apply (proj2 (proj2 Hst) TODAY_DATE m)).
  destruct (scan_page now waktu true b st) as [res s2] eqn:E. simpl. revert E.
  destruct (scan_page_prefix now waktu b m st Hst Hm Ht) as (st1 & D1 & ->).
  rewrite Hr. simpl.
  apply String.eqb_neq in Hb. rewrite Hb.
  destruct (0 <? jatah_tersisa r) eqn:Hq.
  - apply Z.ltb_lt in Hq.
    destruct (jatah_tersisa r <=? 0) eqn:Hle; [lia|].
    rewrite <- D1 in Hr.
    unfold bind at 1. rewrite (record_sukses waktu b (nama r) m r st1 Hh Hr Hq).
    unfold bind at 1. rewrite get_staf_data_empty, select_staf_truthy by done.
    simpl. rewrite lookup_insert_eq. simpl. intros [= _ <-]. simpl.
    unfold scan_row. by rewrite D1.
  - apply Z.ltb_ge in Hq.
    destruct (jatah_tersisa r <=? 0) eqn:Hle; [|lia].
    destruct (record_gagal waktu b (nama r) m st1 Hh) as (st2 & E & G).
    unfold bind. rewrite E. intros [= _ <-].
    unfold gagal_recorded, scan_row in *. rewrite D1 in G.
    by destruct G as (-> & -> & -> & _).
Qed.

(** X22.  A remaining quota of [q] is good for exactly [q] meals: of
    [n] scans in a row of one registered barcode, each of which adds a
    row to the log, the first [min n q] are recorded as SUKSES and the
    rest as GAGAL, and the quota left is [max 0 (q - n)]. *)
Theorem jatah_tersisa_meals (ts : list (Z * string)) (b : string) (r : staf_row)
    (m : menu_dict) (st : State) :
  consistent st →
  tbl_menu_harian (db st) !! TODAY_DATE = Some m →
  tbl_staf (db st) !! b = Some r →
  b ≠ ADMIN_BARCODE_ID →
  0 ≤ jatah_tersisa r →
  let scans := (λ t : Z * string, ReqScan t.1 t.2 true b) <$> ts in
  let n := Z.of_nat (length ts) in
  ∃ new,
    tbl_transaksi (db (run scans st)) = tbl_transaksi (db st) ++ new
    ∧ t_status_scan <$> new
      = replicate (Z.to_nat (Z.min n (jatah_tersisa r))) "SUKSES"
        ++ replicate (Z.to_nat (n - Z.min n (jatah_tersisa r))) "GAGAL"
    ∧ tbl_staf (db (run scans st)) !! b
      = Some (StafRow (nama r) (departemen r) (jatah_harian r)
                (Z.max 0 (jatah_tersisa r - n))).
Proof.
  revert r st. induction ts as [|[now waktu] ts IH]; intros r st Hst Hm Hr Hb Hq.
  - simpl. exists []. rewrite app_nil_r. split; [done|].
    split; [by rewrite Z.min_l by lia|].
    rewrite Hr. destruct r; cbn [nama departemen jatah_harian jatah_tersisa] in *.
    do 2 f_equal. simpl length. lia.
  - cbn [fmap list_fmap run foldl step fst snd length].
    pose proof (scan_registered now waktu b r m st Hst Hm Hr Hb) as [Hmenu Hscan].
    pose proof (scan_page_consistent now waktu true b st Hst) as Hst'.
    set (st' := after (scan_page now waktu true b) st) in *.
    rewrite <- Hmenu in Hm.
    destruct (0 <? jatah_tersisa r) eqn:Hlt.
    + apply Z.ltb_lt in Hlt. destruct Hscan as [Hs Ht].
      assert (tbl_staf (db st') !! b = Some (decrement_row r)) as Hr'
        by (by rewrite Hs, lookup_insert_eq).
      destruct (IH (decrement_row r) st' Hst' Hm Hr' Hb) as (new & E1 & E2 & E3);
        [simpl; lia|].
      unfold run in *. cbn [fmap list_fmap] in *.
      exists (scan_row st waktu b (nama r) m "SUKSES" :: new).
      rewrite E1, Ht, <- app_assoc. split; [done|]. simpl decrement_row in *.
      simpl jatah_tersisa in *. simpl nama in *. simpl departemen in *.
      simpl jatah_harian in *. split.
      * rewrite fmap_cons, E2. simpl t_status_scan.
        assert (Z.to_nat (Z.min (Z.of_nat (S (length ts))) (jatah_tersisa r))
                = S (Z.to_nat (Z.min (Z.of_nat (length ts)) (jatah_tersisa r - 1))))
          as -> by lia.
        assert (Z.to_nat (Z.of_nat (S (length ts))
                          - Z.min (Z.of_nat (S (length ts))) (jatah_tersisa r))
                = Z.to_nat (Z.of_nat (length ts)
                            - Z.min (Z.of_nat (length ts)) (jatah_tersisa r - 1)))
          as -> by lia.
        done.
      * rewrite E3. do 2 f_equal. simpl length. lia.
    + apply Z.ltb_ge in Hlt. destruct Hscan as [Hs Ht].
      assert (tbl_staf (db st') !! b = Some r) as Hr' by (by rewrite Hs).
      destruct (IH r st' Hst' Hm Hr' Hb Hq) as (new & E1 & E2 & E3).
      unfold run in *. cbn [fmap list_fmap] in *.
      exists (scan_row st waktu b (nama r) m "GAGAL" :: new).
      rewrite E1, Ht, <- app_assoc. split; [done|]. split.
      * rewrite fmap_cons, E2. simpl t_status_scan.
        assert (jatah_tersisa r = 0) as H0 by lia. rewrite H0.
        rewrite !Z.min_r by lia. simpl Z.to_nat. simpl app.
        rewrite !Z.sub_0_r, !Nat2Z.id. done.
      * rewrite E3. do 2 f_equal. simpl length. lia.
Qed.

(** ** Further properties: the edit tab, deletion, reset and departments *)

Lemma before_sep_no_space b rest :
  has_space b = false → before_sep " - " (b +:+ " - " +:+ rest) = b.
Proof.
  induction b as [|a b IH]; intros Hb.
  - change ("" +:+ " - " +:+ rest) with (String " " (String "-" (String " " rest))).
    unfold before_sep; fold before_sep. cbn [String.prefix].
    destruct (ascii_dec " " " ") as [_|?]; [|done].
    destruct (ascii_dec "-" "-") as [_|?]; [|done].
    by destruct rest.
  - simpl in Hb. apply orb_false_iff in Hb as [Ha Hb].
    change (String a b +:+ " - " +:+ rest) with (String a (b +:+ " - " +:+ rest)).
    unfold before_sep; fold before_sep. cbn [String.prefix].
    destruct (ascii_dec " " a) as [<-|_]; [by rewrite Ascii.eqb_refl in Ha|].
    by rewrite IH.
Qed.

(** X23.  The barcode taken back from the chosen option is the
    barcode of the row when that barcode has no space in it; but the
    option of a row whose barcode starts with the admin barcode and
    [" - "] is taken for the admin row, which the select box leaves
    out. *)
Theorem barcode_to_edit_resolves (b nama_ x : string) :
  (has_space b = false → barcode_to_edit_of (staf_option b nama_) = b)
  ∧ barcode_to_edit_of (staf_option (ADMIN_BARCODE_ID +:+ " - " +:+ x) nama_)
    = ADMIN_BARCODE_ID.
Proof.
  split.
  - apply before_sep_no_space.
  - unfold barcode_to_edit_of, staf_option.
    replace ((ADMIN_BARCODE_ID +:+ " - " +:+ x) +:+ " - " +:+ nama_)
      with (ADMIN_BARCODE_ID +:+ " - " +:+ (x +:+ " - " +:+ nama_)).
    + by apply before_sep_no_space.
    + reflexivity.
Qed.


(** X25.  The reset makes a used-up quota good again: after it, the
    scan of a registered barcode other than the admin's whose daily
    quota is positive is recorded as SUKSES and leaves the daily quota
    less one. *)
Theorem reset_then_scan (now : Z) (waktu b : string) (r : staf_row) (m : menu_dict)
    (st : State) :
  consistent st →
  tbl_menu_harian (db st) !! TODAY_DATE = Some m →
  tbl_staf (db st) !! b = Some r →
  b ≠ ADMIN_BARCODE_ID →
  0 < jatah_harian r →
  let st2 := after (scan_page now waktu true b) (after reset_jatah_harian st) in
  tbl_staf (db st2) !! b
  = Some (StafRow (nama r) (departemen r) (jatah_harian r) (jatah_harian r - 1))
  ∧ tbl_transaksi (db st2)
    = tbl_transaksi (db st)
      ++ [Transaksi (next_id (tbl_transaksi (db st))) b TODAY_DATE waktu
            (menu m) (harga m) (nama r) "SUKSES"].
Proof.
  intros Hst Hm Hr Hb Hq st2.
  set (st1 := after reset_jatah_harian st).
  assert (consistent st1) as Hst1 by (by apply (step_consistent ReqReset st)).
  assert (tbl_menu_harian (db st1) !! TODAY_DATE = Some m) as Hm1 by done.
  assert (tbl_staf (db st1) !! b = Some (reset_row r)) as Hr1.
  { unfold st1, after. simpl. by rewrite lookup_fmap, Hr. }
  pose proof (scan_registered now waktu b (reset_row r) m st1 Hst1 Hm1 Hr1 Hb)
    as [_ Hs].
  simpl jatah_tersisa in Hs.
  destruct (0 <? jatah_harian r) eqn:E; [|lia].
  destruct Hs as [Hs1 Hs2]. subst st2. fold st1. rewrite Hs1, Hs2.
  split; [by rewrite lookup_insert_eq | done].
Qed.

(** X26.  The department form: it goes through exactly for a
    non-empty name that is not in the table, and then the department
    list read afterwards holds the new name beside the old ones; an
    empty or known name changes nothing. *)
Theorem form_tambah_dept_then_read (new_dept_name : string) (now : Z) (st : State) :
  ∃ res st',
    form_tambah_dept new_dept_name st = (Ok res, st')
    ∧ (res = Berhasil
       ↔ new_dept_name ≠ "" ∧ new_dept_name ∉ tbl_departemen (db st))
    ∧ (res ≠ Berhasil → st' = st)
    ∧ (res = Berhasil →
       ∃ l, (get_departemen_data now st').1 = Ok l
            ∧ ∀ x, x ∈ l ↔ x = new_dept_name ∨ x ∈ tbl_departemen (db st)).
Proof.
  unfold form_tambah_dept.
  destruct new_dept_name as [|a s]; simpl.
  { exists FieldKosong, st. repeat split; try done. by intros [? _]. }
  destruct (decide (String a s ∈ tbl_departemen (db st))) as [Hin|Hin].
  { exists SudahTerdaftar, st. repeat split; try done. by intros [_ ?]. }
  eexists Berhasil, _. split; [done|]. split; [done|]. split; [done|].
  intros _. eexists. split.
  - unfold get_departemen_data, cache_call, commit, clear_all_caches. simpl.
    by rewrite lookup_empty.
  - intros x. unfold select_departemen. simpl.
    rewrite elem_of_sort_by, elem_of_elements, elem_of_union, elem_of_singleton.
    done.
Qed.

End Canteen.

(** ** The theorems at the example data *)

Lemma scan_sukses_witness :
  (consistent contoh_state
   ∧ tbl_menu_harian (db contoh_state) !! "2025-01-01" = Some contoh_menu
   ∧ tbl_staf (db contoh_state) !! "1001" = Some contoh_staf
   ∧ 0 < jatah_tersisa contoh_staf
   ∧ "1001" ≠ ADMIN_BARCODE_ID)
  ∧ ∃ st',
      scan_page "2025-01-01" 0 "12:00:00" true "1001" contoh_state
      = (Ok (Sukses "Budi Santoso" "Produksi" "Nasi Goreng" 15000 0 1), st')
      ∧ tbl_staf (db st') !! "1001" = Some (StafRow "Budi Santoso" "Produksi" 1 0).
Proof.
  assert (consistent contoh_state) as H1
    by (apply (bool_decide_unpack _); vm_compute; reflexivity).
  assert (tbl_menu_harian (db contoh_state) !! "2025-01-01" = Some contoh_menu) as H2
    by reflexivity.
  assert (tbl_staf (db contoh_state) !! "1001" = Some contoh_staf) as H3 by reflexivity.
  assert (0 < jatah_tersisa contoh_staf) as H4 by (simpl; lia).
  assert ("1001" ≠ ADMIN_BARCODE_ID) as H5 by discriminate.
  split; [tauto|].
  destruct (scan_sukses "2025-01-01" 0 "12:00:00" "1001" contoh_staf contoh_menu
              contoh_state H1 H2 H3 H4 H5) as (st' & E & _ & Hr & _).
  exists st'. split; [exact E | exact Hr].
Defined.

Lemma jatah_tersisa_never_negative_witness :
  let rs :=
    [ReqMenu "Nasi Goreng" 15000;
     ReqTambahStaf "1001" "Budi Santoso" "Produksi" 1;
     ReqScan 0 "12:00:00" true "1001";
     ReqScan 1 "12:00:01" true "1001";
     ReqImpor df_nan;
     ReqReset] in
  (quota_inv (db initial_state) ∧ forallb widget_ok rs = true)
  ∧ ∀ b r,
      tbl_staf (db (run "2025-01-01" (λ _, "1.0") rs initial_state)) !! b = Some r →
      0 ≤ jatah_tersisa r.
Proof.
  intros rs.
  assert (quota_inv (db initial_state)) as H1
    by (apply (bool_decide_unpack _); vm_compute; reflexivity).
  assert (forallb widget_ok rs = true) as H2 by reflexivity.
  split; [tauto|].
  exact (proj1 (jatah_tersisa_never_negative "2025-01-01" (λ _, "1.0") rs
                  initial_state H1 H2)).
Defined.

Lemma scan_tidak_terdaftar_witness :
  (consistent contoh_state
   ∧ tbl_menu_harian (db contoh_state) !! "2025-01-01" = Some contoh_menu
   ∧ tbl_staf (db contoh_state) !! "777" = None
   ∧ "777" ≠ "")
  ∧ ∃ st',
      scan_page "2025-01-01" 0 "12:00:00" true "777" contoh_state
      = (Ok GagalTidakTerdaftar, st')
      ∧ tbl_transaksi (db st')
        = [Transaksi 1 "777" "2025-01-01" "12:00:00" "Nasi Goreng" 15000 "N/A" "GAGAL"]
      ∧ tbl_staf (db st') = tbl_staf (db contoh_state).
Proof.
  assert (consistent contoh_state) as H1
    by (apply (bool_decide_unpack _); vm_compute; reflexivity).
  assert (tbl_menu_harian (db contoh_state) !! "2025-01-01" = Some contoh_menu) as H2
    by reflexivity.
  assert (tbl_staf (db contoh_state) !! "777" = None) as H3 by reflexivity.
  assert ("777" ≠ "") as H4 by discriminate.
  split; [tauto|].
  destruct (scan_tidak_terdaftar "2025-01-01" 0 "12:00:00" "777" contoh_menu
              contoh_state H1 H2 H3 H4) as (st' & E & Ht & Hs & _).
  exists st'. split; [exact E|]. split; [exact Ht | exact Hs].
Defined.

(** C4 as first stated fails at the empty barcode: the form is
    submitted, the menu is set, no staff row has the empty barcode, and
    the page records nothing. *)
Lemma scan_empty_barcode_counterexample :
  tbl_menu_harian (db contoh_state) !! "2025-01-01" = Some contoh_menu
  ∧ tbl_staf (db contoh_state) !! "" = None
  ∧ (scan_page "2025-01-01" 0 "12:00:00" true "" contoh_state).1 = Ok TidakAdaScan
  ∧ tbl_transaksi (db (scan_page "2025-01-01" 0 "12:00:00" true "" contoh_state).2)
    = tbl_transaksi (db contoh_state).
Proof. repeat split. Qed.

Lemma scan_jatah_habis_witness :
  (consistent contoh_habis
   ∧ tbl_menu_harian (db contoh_habis) !! "2025-01-01" = Some contoh_menu
   ∧ tbl_staf (db contoh_habis) !! "1001" = Some (StafRow "Budi Santoso" "Produksi" 1 0)
   ∧ jatah_tersisa (StafRow "Budi Santoso" "Produksi" 1 0) = 0)
  ∧ ∃ st',
      scan_page "2025-01-01" 5 "12:00:05" true "1001" contoh_habis
      = (Ok (GagalJatahHabis "Budi Santoso"), st')
      ∧ tbl_transaksi (db st')
        = tbl_transaksi (db contoh_habis)
          ++ [Transaksi 2 "1001" "2025-01-01" "12:00:05" "Nasi Goreng" 15000
                "Budi Santoso" "GAGAL"]
      ∧ tbl_staf (db st') = tbl_staf (db contoh_habis).
Proof.
  assert (consistent contoh_habis) as H1
    by (apply (bool_decide_unpack _); vm_compute; reflexivity).
  assert (tbl_menu_harian (db contoh_habis) !! "2025-01-01" = Some contoh_menu) as H2
    by reflexivity.
  assert (tbl_staf (db contoh_habis) !! "1001"
          = Some (StafRow "Budi Santoso" "Produksi" 1 0)) as H3 by reflexivity.
  assert (jatah_tersisa (StafRow "Budi Santoso" "Produksi" 1 0) = 0) as H4
    by reflexivity.
  split; [tauto|].
  destruct (scan_jatah_habis "2025-01-01" 5 "12:00:05" "1001" _ contoh_menu
              contoh_habis H1 H2 H3 H4) as (st' & E & Ht & Hs & _).
  exists st'. split; [exact E|]. split; [exact Ht | exact Hs].
Defined.

Lemma scan_admin_witness :
  (consistent contoh_state
   ∧ tbl_menu_harian (db contoh_state) !! "2025-01-01" = Some contoh_menu)
  ∧ ∃ st',
      scan_page "2025-01-01" 0 "12:00:00" true ADMIN_BARCODE_ID contoh_state
      = (Ok GagalAdmin, st')
      ∧ tbl_transaksi (db st')
        = [Transaksi 1 "9999" "2025-01-01" "12:00:00" "Nasi Goreng" 15000
             "Administrator" "GAGAL"]
      ∧ tbl_staf (db st') = tbl_staf (db contoh_state).
Proof.
  assert (consistent contoh_state) as H1
    by (apply (bool_decide_unpack _); vm_compute; reflexivity).
  assert (tbl_menu_harian (db contoh_state) !! "2025-01-01" = Some contoh_menu) as H2
    by reflexivity.
  split; [tauto|].
  destruct (scan_admin "2025-01-01" 0 "12:00:00" contoh_menu contoh_state H1 H2)
    as (st' & E & Ht & Hs).
  exists st'. split; [exact E|]. split; [exact Ht | exact Hs].
Defined.

Lemma scan_menu_belum_diatur_witness :
  (coherent initial_state
   ∧ tbl_menu_harian (db initial_state) !! "2025-01-01" = None)
  ∧ ∃ st',
      scan_page "2025-01-01" 0 "12:00:00" true "1001" initial_state
      = (Ok MenuBelumDiatur, st')
      ∧ db st' = db initial_state.
Proof.
  assert (coherent initial_state) as H1
    by (apply (bool_decide_unpack _); vm_compute; reflexivity).
  assert (tbl_menu_harian (db initial_state) !! "2025-01-01" = None) as H2
    by reflexivity.
  split; [tauto|].
  exact (scan_menu_belum_diatur "2025-01-01" 0 "12:00:00" true "1001"
           initial_state H1 H2).
Defined.


Lemma reset_jatah_harian_all_rows_witness :
  admin_penuh (db contoh_habis)
  ∧ ∃ st',
      reset_jatah_harian contoh_habis = (Ok true, st')
      ∧ tbl_staf (db st') !! "1001" = Some (StafRow "Budi Santoso" "Produksi" 1 1)
      ∧ tbl_staf (db st') !! ADMIN_BARCODE_ID = Some contoh_admin
      ∧ tbl_transaksi (db st') = tbl_transaksi (db contoh_habis).
Proof.
  assert (admin_penuh (db contoh_habis)) as H1.
  { intros r. vm_compute. by intros [= <-]. }
  split; [exact H1|].
  destruct (reset_jatah_harian_all_rows contoh_habis) as (st' & E & Hr & Ha & Ht & _).
  exists st'. split; [exact E|].
  split; [exact (Hr "1001")|]. split; [exact (Ha H1) | exact Ht].
Defined.

Lemma setup_database_keeps_cache_witness :
  let e := Entry 0 (RDict None) in
  let st := mkState empty_db (mkCache ∅ (<[Some ADMIN_BARCODE_ID := e]> ∅) ∅ ∅) in
  (c_staf (cache st) !! Some ADMIN_BARCODE_ID = Some e ∧ 10 < created e + 600)
  ∧ (get_staf_data 10 (Some ADMIN_BARCODE_ID) (after setup_database st)).1
    = Ok (RDict None)
  ∧ is_Some (tbl_staf (db (after setup_database st)) !! ADMIN_BARCODE_ID).
Proof.
  intros e st.
  assert (c_staf (cache st) !! Some ADMIN_BARCODE_ID = Some e) as H1 by reflexivity.
  assert (10 < created e + 600) as H2 by (simpl; lia).
  split; [tauto|].
  split; [exact (proj2 (setup_database_keeps_cache st 10 _ e H1 H2))|].
  by eexists.
Defined.

Lemma session_reads_are_current_witness :
  let rs :=
    [ReqMenu "Nasi Goreng" 15000;
     ReqStaf 0 (Some "1001");
     ReqTambahStaf "1001" "Budi Santoso" "Produksi" 1;
     ReqScan 1 "12:00:00" true "1001"] in
  (forallb widget_ok rs = true ∧ ReqSetup ∉ rs)
  ∧ (read 2 (QStaf (Some "1001"))
       (run "2025-01-01" (λ _, "1.0") rs initial_state)).1
    = Ok (AStaf (RDict (Some (StafDict "1001" "Budi Santoso" "Produksi" 1 0)))).
Proof.
  intros rs.
  assert (forallb widget_ok rs = true) as H1 by reflexivity.
  assert (ReqSetup ∉ rs) as H2.
  { intros H. repeat (apply elem_of_cons in H as [H|H]; [discriminate|]).
    by apply elem_of_nil in H. }
  split; [tauto|].
  exact (session_reads_are_current "2025-01-01" (λ _, "1.0") rs 2
           (QStaf (Some "1001")) H1 H2).
Defined.

Lemma scan_page_nothing_submitted_witness :
  (true = false ∨ "" = "")
  ∧ db (after (scan_page "2025-01-01" 0 "12:00:00" true "") contoh_state)
    = db contoh_state.
Proof.
  assert (true = false ∨ "" = "") as H1 by (right; reflexivity).
  split; [exact H1|].
  exact (proj1 (scan_page_nothing_submitted "2025-01-01" 0 "12:00:00" true ""
                  contoh_state H1)).
Defined.

Lemma transaksi_ids_increase_witness :
  let rs :=
    [ReqScan 0 "12:00:00" true "1001";
     ReqScan 1 "12:00:01" true "1001";
     ReqScan 2 "12:00:02" true "777"] in
  StronglySorted (λ a b, t_id a < t_id b) (tbl_transaksi (db contoh_state))
  ∧ NoDup (t_id <$> tbl_transaksi
             (db (run "2025-01-01" (λ _, "1.0") rs contoh_state))).
Proof.
  intros rs.
  assert (StronglySorted (λ a b, t_id a < t_id b) (tbl_transaksi (db contoh_state)))
    as H1 by constructor.
  split; [exact H1|].
  exact (proj2 (transaksi_ids_increase "2025-01-01" (λ _, "1.0") rs contoh_state H1)).
Defined.

Lemma tambah_staf_form_registered_witness :
  tbl_staf (db contoh_state) !! "1001" = Some contoh_staf
  ∧ ∃ res,
      tambah_staf_form "1001" "Orang Lain" "HRD" 5 contoh_state = (Ok res, contoh_state)
      ∧ res ≠ Berhasil.
Proof.
  assert (tbl_staf (db contoh_state) !! "1001" = Some contoh_staf) as H1 by reflexivity.
  split; [exact H1|].
  exact (tambah_staf_form_registered "1001" "Orang Lain" "HRD" 5 contoh_staf
           contoh_state H1).
Defined.

Lemma tambah_staf_form_then_read_witness :
  (tbl_staf (db contoh_state) !! "1002" = None
   ∧ "1002" ≠ "" ∧ "Siti Rahma" ≠ "" ∧ number_input_ok 1 2 = true)
  ∧ ∃ st',
      tambah_staf_form "1002" "Siti Rahma" "HRD" 2 contoh_state = (Ok Berhasil, st')
      ∧ (get_staf_data 7 (Some "1002") st').1
        = Ok (RDict (Some (StafDict "1002" "Siti Rahma" "HRD" 2 2))).
Proof.
  assert (tbl_staf (db contoh_state) !! "1002" = None) as H1 by reflexivity.
  assert ("1002" ≠ "") as H2 by discriminate.
  assert ("Siti Rahma" ≠ "") as H3 by discriminate.
  assert (number_input_ok 1 2 = true) as H4 by reflexivity.
  split; [tauto|].
  destruct (tambah_staf_form_then_read "1002" "Siti Rahma" "HRD" 2 7 contoh_state
              H1 H2 H3 H4) as (st' & E & Hr & _).
  exists st'. split; [exact E | exact Hr].
Defined.


Lemma import_missing_column_witness :
  let df := mkDataFrame ["barcode_id"; "nama"; "departemen"]
              [[CInt 1001; CStr "Budi Santoso"; CStr "Produksi"]] in
  ("jatah_harian" ∈ required_cols ∧ "jatah_harian" ∉ columns df)
  ∧ import_staf_from_csv (λ _, "1.0") df contoh_state = (Ok (0, 0), contoh_state).
Proof.
  intros df.
  assert ("jatah_harian" ∈ required_cols) as H1.
  { unfold required_cols. do 3 apply list_elem_of_further. apply list_elem_of_here. }
  assert ("jatah_harian" ∉ columns df) as H2.
  { intros H. repeat (apply elem_of_cons in H as [H|H]; [discriminate|]).
    by apply elem_of_nil in H. }
  split; [tauto|].
  exact (import_missing_column (λ _, "1.0") df "jatah_harian" contoh_state H1 H2).
Defined.

Lemma import_counts_every_row_witness :
  (columns_present df_nan = true
   ∧ import_staf_from_csv (λ _, "1.0") df_nan contoh_state
     = (Ok (1, 1), (import_staf_from_csv (λ _, "1.0") df_nan contoh_state).2))
  ∧ 1 + 1 = Z.of_nat (length (records df_nan)).
Proof.
  assert (columns_present df_nan = true) as H1 by reflexivity.
  assert (import_staf_from_csv (λ _, "1.0") df_nan contoh_state
          = (Ok (1, 1), (import_staf_from_csv (λ _, "1.0") df_nan contoh_state).2))
    as H2 by reflexivity.
  split; [tauto|].
  exact (proj1 (import_counts_every_row (λ _, "1.0") df_nan contoh_state _ 1 1 H1 H2)).
Defined.

Lemma import_twice_witness :
  let st1 := (import_staf_from_csv (λ _, "1.0") df_nan contoh_state).2 in
  import_staf_from_csv (λ _, "1.0") df_nan contoh_state = (Ok (1, 1), st1)
  ∧ ∃ st2,
      import_staf_from_csv (λ _, "1.0") df_nan st1 = (Ok (1, 1), st2)
      ∧ db st2 = db st1.
Proof.
  intros st1.
  assert (import_staf_from_csv (λ _, "1.0") df_nan contoh_state = (Ok (1, 1), st1))
    as H1 by reflexivity.
  split; [exact H1|].
  exact (import_twice (λ _, "1.0") df_nan contoh_state st1 (1, 1) H1).
Defined.

Lemma import_rows_written_witness :
  let st1 := (import_staf_from_csv (λ _, "1.0") df_nan contoh_habis).2 in
  let r := StafRow "Budi Santoso" "Produksi" 1 1 in
  (import_staf_from_csv (λ _, "1.0") df_nan contoh_habis = (Ok (1, 1), st1)
   ∧ tbl_staf (db st1) !! "1001" = Some r)
  ∧ (tbl_staf (db contoh_habis) !! "1001" = Some r
     ∨ ("1001" ≠ "" ∧ nama r ≠ "" ∧ 0 < jatah_harian r
        ∧ jatah_tersisa r = jatah_harian r
        ∧ departemen r ∈ tbl_departemen (db st1))).
Proof.
  intros st1 r.
  assert (import_staf_from_csv (λ _, "1.0") df_nan contoh_habis = (Ok (1, 1), st1))
    as H1 by reflexivity.
  assert (tbl_staf (db st1) !! "1001" = Some r) as H2 by reflexivity.
  split; [tauto|].
  exact (import_rows_written (λ _, "1.0") df_nan contoh_habis st1 (1, 1) "1001" r
           H1 H2).
Defined.

Lemma admin_laporan_scan_harian_totals_witness :
  coherent contoh_habis
  ∧ ∃ st',
      admin_laporan_scan_harian 0 "2025-01-01" "2025-01-31" "SEMUA DEPARTEMEN"
        "SEMUA STATUS" contoh_habis
      = (Ok (Ringkasan 1 0 15000
               [Laporan 1 "2025-01-01" "12:00:00" "1001" "Budi Santoso" "Produksi"
                  "Nasi Goreng" 15000 "SUKSES"]), st')
      ∧ db st' = db contoh_habis.
Proof.
  assert (coherent contoh_habis) as H1
    by (apply (bool_decide_unpack _); vm_compute; reflexivity).
  split; [exact H1|].
  destruct (admin_laporan_scan_harian_totals 0 "2025-01-01" "2025-01-31"
              "SEMUA DEPARTEMEN" "SEMUA STATUS" contoh_habis H1)
    as (st' & E & D & _).
  exists st'. split; [exact E | exact D].
Defined.

Lemma admin_page_needs_barcode_witness :
  let l := [KlikLoginAdmin; KirimLogin true "1234"; KirimLogin false "9999";
            KlikLogout; PilihLogout] in
  (KirimLogin true ADMIN_BARCODE_ID ∉ l)
  ∧ route (acts l session_awal) ≠ PageAdmin.
Proof.
  intros l.
  assert (KirimLogin true ADMIN_BARCODE_ID ∉ l) as H1.
  { intros H. repeat (apply elem_of_cons in H as [H|H]; [discriminate|]).
    by apply elem_of_nil in H. }
  split; [exact H1|].
  exact (proj1 (admin_page_needs_barcode l H1)).
Defined.

Lemma jatah_tersisa_meals_witness :
  let ts := [(0, "12:00:00"); (1, "12:00:01"); (2, "12:00:02")] in
  (consistent contoh_state
   ∧ tbl_menu_harian (db contoh_state) !! "2025-01-01" = Some contoh_menu
   ∧ tbl_staf (db contoh_state) !! "1001" = Some contoh_staf
   ∧ "1001" ≠ ADMIN_BARCODE_ID
   ∧ 0 ≤ jatah_tersisa contoh_staf)
  ∧ ∃ new,
      tbl_transaksi
        (db (run "2025-01-01" (λ _, "1.0")
               ((λ t : Z * string, ReqScan t.1 t.2 true "1001") <$> ts) contoh_state))
      = new
      ∧ t_status_scan <$> new = ["SUKSES"; "GAGAL"; "GAGAL"].
Proof.
  intros ts.
  assert (consistent contoh_state) as H1
    by (apply (bool_decide_unpack _); vm_compute; reflexivity).
  assert (tbl_menu_harian (db contoh_state) !! "2025-01-01" = Some contoh_menu) as H2
    by reflexivity.
  assert (tbl_staf (db contoh_state) !! "1001" = Some contoh_staf) as H3 by reflexivity.
  assert ("1001" ≠ ADMIN_BARCODE_ID) as H4 by discriminate.
  assert (0 ≤ jatah_tersisa contoh_staf) as H5 by (simpl; lia).
  split; [tauto|].
  destruct (jatah_tersisa_meals "2025-01-01" (λ _, "1.0") ts "1001" contoh_staf
              contoh_menu contoh_state H1 H2 H3 H4 H5) as (new & E1 & E2 & _).
  exists new. split; [exact E1 | exact E2].
Defined.


Lemma reset_then_scan_witness :
  let r := StafRow "Budi Santoso" "Produksi" 1 0 in
  (consistent contoh_habis
   ∧ tbl_menu_harian (db contoh_habis) !! "2025-01-01" = Some contoh_menu
   ∧ tbl_staf (db contoh_habis) !! "1001" = Some r
   ∧ "1001" ≠ ADMIN_BARCODE_ID
   ∧ 0 < jatah_harian r)
  ∧ tbl_staf
      (db (after (scan_page "2025-01-01" 9 "12:00:09" true "1001")
             (after reset_jatah_harian contoh_habis))) !! "1001"
    = Some (StafRow "Budi Santoso" "Produksi" 1 0).
Proof.
  intros r.
  assert (consistent contoh_habis) as H1
    by (apply (bool_decide_unpack _); vm_compute; reflexivity).
  assert (tbl_menu_harian (db contoh_habis) !! "2025-01-01" = Some contoh_menu) as H2
    by reflexivity.
  assert (tbl_staf (db contoh_habis) !! "1001" = Some r) as H3 by reflexivity.
  assert ("1001" ≠ ADMIN_BARCODE_ID) as H4 by discriminate.
  assert (0 < jatah_harian r) as H5 by (simpl; lia).
  split; [tauto|].
  exact (proj1 (reset_then_scan "2025-01-01" (λ _, "1.0") 9 "12:00:09" "1001" r
                  contoh_menu
                  contoh_habis H1 H2 H3 H4 H5)).
Defined.

Lemma write_clears_cache_witness :
  let old := RDict (Some (StafDict "1001" "Budi Santoso" "Produksi" 1 1)) in
  let st := mkState contoh_db (mkCache ∅ (<[Some "1001" := Entry 0 old]> ∅) ∅ ∅) in
  let w := WRecord "12:00:00" "1001" "Budi Santoso" "Nasi Goreng" 15000 "SUKSES" in
  (write_valid (λ _, "1.0") w (db st) = true
   ∧ (read 1 (QStaf (Some "1001")) st).1 = Ok (AStaf old))
  ∧ ∃ st',
      perform "2025-01-01" (λ _, "1.0") w st = (Ok true, st')
      ∧ cache st' = empty_cache
      ∧ (read 1 (QStaf (Some "1001")) st').1
        = Ok (AStaf (RDict (Some (StafDict "1001" "Budi Santoso" "Produksi" 1 0)))).
Proof.
  intros old st w.
  assert (write_valid (λ _, "1.0") w (db st) = true) as H1 by reflexivity.
  assert ((read 1 (QStaf (Some "1001")) st).1 = Ok (AStaf old)) as H2 by reflexivity.
  split; [tauto|].
  destruct (proj1 (write_clears_cache "2025-01-01" (λ _, "1.0") w st) H1)
    as (st' & E & _ & Hc & Hr).
  exists st'. split; [exact E|]. split; [exact Hc|].
  exact (Hr 1 (QStaf (Some "1001"))).
Defined.
